(** * bosh-agent: HTTP metadata service and CentOS network manager

    A shallow embedding of [infrastructure/http_metadata_service.go] and of
    the network manager exercised by [platform/net/centos_net_manager_test.go],
    together with the properties of the design document that concern them. *)

From Stdlib Require Import String Ascii List ZArith Bool Lia.
From stdpp Require Import base option list gmap gmultiset strings fin_maps.

Local Open Scope string_scope.
Local Open Scope list_scope.

(* ===================================================================== *)
(** ** bosh-utils/errors *)
(* ===================================================================== *)

Module Bosherr.

(** [bosherr.Error(msg)] and [fmt.Errorf(msg)] build a leaf;
    [bosherr.WrapError(cause, msg)] keeps the cause underneath. *)
Inductive error : Type :=
| Error (msg : string)
| WrapError (cause : error) (msg : string).

(** [bosherr.WrapErrorf(cause, fmt, arg)] for the one-argument formats used
    in this package: the argument is spliced in for [%s]. *)
Definition WrapErrorf (cause : error) (prefix arg suffix : string) : error :=
  WrapError cause (prefix +:+ arg +:+ suffix).

(** The text Go prints for an error: ["msg: cause"]. *)
Fixpoint message (e : error) : string :=
  match e with
  | Error msg => msg
  | WrapError cause msg => msg +:+ ": " +:+ message cause
  end.

(** [wraps cause e]: [e] was obtained from [cause] by one or more
    [WrapError] steps. *)
Inductive wraps (cause : error) : error -> Prop :=
| wraps_once msg : wraps cause (WrapError cause msg)
| wraps_more e msg : wraps cause e -> wraps cause (WrapError e msg).

End Bosherr.
Export Bosherr.

(* ===================================================================== *)
(** ** settings: the network specification *)
(* ===================================================================== *)

Module Settings.

(** Modelled from the spec: the network type of [settings/settings.go],
    "type (manual | dynamic | vip)"; the package is not among the sources
    at hand. *)
Inductive NetworkType : Type :=
| NetworkTypeManual
| NetworkTypeDynamic
| NetworkTypeVIP.

(** Modelled from the spec: the NetworkSpec of [settings/settings.go]:
    type, IP, netmask, gateway, MAC (empty when absent), DNS servers in
    order, and the list of what the network is the default for. *)
Record Network : Type := mkNetwork {
  Type_ : NetworkType;
  IP : string;
  Netmask : string;
  Gateway : string;
  Mac : string;
  DNS : list string;
  Default : list string
}.

(** Modelled from the spec: [boshsettings.Networks] of
    [settings/settings.go], a map from network name to network. *)
Abbreviation Networks := (gmap string Network).

(** Modelled from the spec: whether a network is a vip entry
    ([settings/settings.go]). *)
Definition IsVIP (n : Network) : bool :=
  match Type_ n with NetworkTypeVIP => true | _ => false end.

(** Modelled from the spec: the Go literal [Network{Type: t}] over the
    network of [settings/settings.go]: every other field is its zero
    value. *)
Definition zeroNetwork (t : NetworkType) : Network :=
  mkNetwork t "" "" "" "" [] [].

End Settings.
Export Settings.

(* ===================================================================== *)
(** ** infrastructure: the HTTP metadata service *)
(* ===================================================================== *)

Module Infrastructure.

(** *** Collaborators

    The service talks to a platform (network queries, network setup and the
    file system behind [GetFs]), to a DNS resolver, to a logger and to the Go
    runtime ([crypto/sha1], [encoding/json], [net/http]).  The mutable part
    of what they see is a [World]; everything a call does to a collaborator
    is recorded as an [event], in program order. *)

Record World : Type := mkWorld {
  files : gmap string string;          (* path -> bytes *)
  configuredInterfaces : list string;  (* what the platform has configured *)
  requestsSent : nat                   (* round trips made so far *)
}.

(** [http.Header], the header of a request: the values given under each
    key.  [doGet] adds the headers of the service in the order of a [range]
    over a Go map, which the language leaves open; so the values of a key
    are kept as a multiset, which is what every such order agrees on. *)
Abbreviation Header := (gmap string (gmultiset string)).

Inductive event : Type :=
| EvGetConfiguredNetworkInterfaces
| EvSetupNetworking (networks : Networks)
| EvReadFile (path : string)
| EvWriteFile (path : string) (content : string)
| EvHTTPRequest (method url : string) (header : Header)
| EvLookupHost (nameServers : list string) (host : string)
| EvDebug (tag msg : string)
| EvWarn (tag msg : string).

(** Modelled from the spec: [boshplat.Platform] ([platform/platform.go],
    not among the sources at hand), the part this file calls: the query for
    the configured interfaces, the network setup, and the file system
    behind [GetFs].  The fields are the outcomes a platform can produce:
    failures of its file system; and for its network calls, which depend on
    the state of the host when they are made, whether the call fails in a
    given world, and the files and configured interfaces a call of
    [SetupNetworking] leaves behind, whether it fails or not (it writes
    configuration files). *)
Record Platform : Type := mkPlatform {
  ReadFileErr : string -> option error;
  WriteFileErr : string -> option error;
  GetConfiguredNetworkInterfacesErr : World -> option error;
  SetupNetworkingErr : Networks -> World -> option error;
  SetupNetworkingResult : Networks -> World -> gmap string string * list string
}.

(** Modelled from the spec: the [DNSResolver] interface of the package
    ([infrastructure/dns_resolver.go], not among the sources at hand):
    [LookupHost(nameServers, host)] resolves a hostname against an explicit
    list of name servers. *)
Record DNSResolver : Type := mkDNSResolver {
  LookupHostResult : list string -> string -> string * option error
}.

(** [*http.Response] as far as [doGet] looks at it: reading the whole body
    and closing it can each fail. *)
Record Response : Type := mkResponse {
  StatusCode : Z;
  Body : string;
  ReadAllErr : option error;
  CloseErr : option error
}.

(** Modelled from the spec: the server part of [UserDataContentsType]
    (declared in another file of the package, not among the sources at
    hand): a server name. *)
Record ServerType : Type := mkServer { Name : string }.

(** Modelled from the spec: the registry part of [UserDataContentsType]:
    a registry endpoint. *)
Record RegistryType : Type := mkRegistry { Endpoint : string }.

(** Modelled from the spec: the DNS part of [UserDataContentsType]: the
    optional list of name servers used to resolve the endpoint. *)
Record DNSType : Type := mkDNS { Nameserver : list string }.

(** Modelled from the spec: [UserDataContentsType], the user-data
    document, with the fields the accessors read: [Server.Name],
    [Registry.Endpoint], [DNS.Nameserver], [Networks]. *)
Record UserDataContentsType : Type := mkUserData {
  Server : ServerType;
  Registry : RegistryType;
  DNS : DNSType;
  Networks_ : Networks
}.

(** [var userData UserDataContentsType]: the zero value. *)
Definition zeroUserData : UserDataContentsType :=
  mkUserData (mkServer "") (mkRegistry "") (mkDNS []) ∅.

(** The Go runtime and the libraries behind [doGet]: the hex form of
    [sha1.Sum], [json.Unmarshal] into a zero [UserDataContentsType] (it
    returns what it filled in, and an error), [http.NewRequest] rejecting a
    URL, the canonical form [textproto.CanonicalMIMEHeaderKey] gives a
    header key, and the answer of the network to the [n]-th round trip.

    Modelled from the spec: the last two fields stand for the retrying
    client of [boshhttp.NewRetryClient] (not among the sources at hand),
    which retries "up to a bounded attempt count ... on transient failure":
    [retry_IsRetryable] is whether the client takes the outcome of an
    attempt for such a failure, and [retry_Answer] is what [Do] returns for
    the outcome of its last attempt. *)
Record Runtime : Type := mkRuntime {
  sha1_Sum_hex : string -> string;
  json_Unmarshal : string -> UserDataContentsType * option error;
  http_NewRequestErr : string -> option error;
  textproto_CanonicalMIMEHeaderKey : string -> string;
  http_RoundTrip : nat -> string -> Header -> error + Response;
  retry_IsRetryable : error + Response -> bool;
  retry_Answer : error + Response -> error + Response
}.

(** The service.  Its logger has no field here: what it logs are the
    [EvDebug] and [EvWarn] events. *)
Record httpMetadataService : Type := mkService {
  metadataHost : string;
  metadataHeaders : gmap string string;
  userdataPath : string;
  instanceIDPath : string;
  sshKeysPath : string;
  resolver : DNSResolver;
  platform : Platform;
  logTag : string;
  retryDelay : Z
}.

(** *** The effect monad: state passing over [World], with the events a
    computation emits collected in order. *)

Definition M (A : Type) : Type := World -> A * World * list event.

Definition ret {A} (a : A) : M A := fun w => (a, w, []).

Definition bind {A B} (m : M A) (k : A -> M B) : M B :=
  fun w =>
    let '(a, w1, e1) := m w in
    let '(b, w2, e2) := k a w1 in
    (b, w2, e1 ++ e2).

Definition emit (e : event) : M unit := fun w => (tt, w, [e]).

(** stdpp's monadic notation: [x ← m; k] is [bind m (fun x => k)]. *)
#[global] Instance M_ret : MRet M := @ret.
#[global] Instance M_bind : MBind M := fun A B k m => bind m k.

Definition value {A} (r : A * World * list event) : A := fst (fst r).
Definition world {A} (r : A * World * list event) : World := snd (fst r).
Definition events {A} (r : A * World * list event) : list event := snd r.

(** *** Collaborator calls *)

Definition GetConfiguredNetworkInterfaces (p : Platform)
  : M (list string * option error) :=
  fun w =>
    match GetConfiguredNetworkInterfacesErr p w with
    | Some err => (([], Some err), w, [EvGetConfiguredNetworkInterfaces])
    | None => ((configuredInterfaces w, None), w, [EvGetConfiguredNetworkInterfaces])
    end.

Definition SetupNetworking (p : Platform) (networks : Networks)
  : M (option error) :=
  fun w =>
    let '(files', interfaces') := SetupNetworkingResult p networks w in
    (SetupNetworkingErr p networks w,
     mkWorld files' interfaces' (requestsSent w),
     [EvSetupNetworking networks]).

Definition ReadFile (p : Platform) (path : string) : M (string * option error) :=
  fun w =>
    match ReadFileErr p path with
    | Some err => (("", Some err), w, [EvReadFile path])
    | None =>
        match files w !! path with
        | Some bytes => ((bytes, None), w, [EvReadFile path])
        | None => (("", Some (Error ("open " +:+ path +:+ ": no such file or directory"))),
                   w, [EvReadFile path])
        end
    end.

Definition WriteFile (p : Platform) (path content : string) : M (option error) :=
  fun w =>
    match WriteFileErr p path with
    | Some err => (Some err, w, [EvWriteFile path content])
    | None =>
        (None,
         mkWorld (<[path := content]> (files w)) (configuredInterfaces w) (requestsSent w),
         [EvWriteFile path content])
    end.

Definition LookupHost (r : DNSResolver) (nameServers : list string) (host : string)
  : M (string * option error) :=
  fun w => (LookupHostResult r nameServers host, w, [EvLookupHost nameServers host]).

(** [h.Add(key, value)] of [http.Header]: the value joins those of the
    canonical form of the key. *)
Definition Header_Add (R : Runtime) (h : Header) (key value : string) : Header :=
  let k := textproto_CanonicalMIMEHeaderKey R key in
  <[k := {[+ value +]} ⊎ default ∅ (h !! k)]> h.

(** One round trip of the delegate [&http.Client{}]. *)
Definition roundTrip (R : Runtime) (url : string) (header : Header)
  : M (error + Response) :=
  fun w =>
    (http_RoundTrip R (requestsSent w) url header,
     mkWorld (files w) (configuredInterfaces w) (S (requestsSent w)),
     [EvHTTPRequest "GET" url header]).

(** Modelled from the spec:
    [boshhttp.NewRetryClient(delegate, maxAttempts, delay, logger).Do(req)].
    The request is tried [maxAttempts] times at most; after an attempt the
    client tries again if attempts are left and it takes the outcome for a
    transient failure, and answers for the outcome otherwise.  The pause of
    [delay] between attempts has no counterpart here. *)
Fixpoint retryLoop (R : Runtime) (more : nat) (url : string)
    (header : Header) : M (error + Response) :=
  r ← roundTrip R url header;
  match more with
  | S more' =>
      if retry_IsRetryable R r then retryLoop R more' url header
      else ret (retry_Answer R r)
  | O => ret (retry_Answer R r)
  end.

Definition RetryClient_Do (R : Runtime) (maxAttempts : nat) (delay : Z)
    (url : string) (header : Header) : M (error + Response) :=
  retryLoop R (pred maxAttempts) url header.

(** *** The service *)

Definition Load (ms : httpMetadataService) : option error := None.

Definition IsAvailable (ms : httpMetadataService) : bool := true.

Section Service.
Variable R : Runtime.
Variable ms : httpMetadataService.

(** [boshsettings.Networks{"eth0": {Type: boshsettings.NetworkTypeDynamic}}] *)
Definition minimalNetworks : Networks :=
  {[ "eth0" := zeroNetwork NetworkTypeDynamic ]}.

Definition ensureMinimalNetworkSetup : M (option error) :=
  '(configuredInterfaces, err) ← GetConfiguredNetworkInterfaces (platform ms);
  match err with
  | Some err => mret (Some (WrapError err "Getting configured network interfaces"))
  | None =>
      if Nat.eqb (length configuredInterfaces) 0 then
        _ ← emit (EvDebug (logTag ms) "No configured networks found, setting up DHCP network");
        err ← SetupNetworking (platform ms) minimalNetworks;
        match err with
        | Some err => mret (Some (WrapError err "Setting up initial DHCP network"))
        | None => mret None
        end
      else mret None
  end.

Definition cachePath (url : string) : string :=
  "/var/vcap/bosh/http-metadata-service-" +:+ sha1_Sum_hex R url.

(** The deferred [resp.Body.Close()]: it runs when [doGet] returns, after
    the body of the function, and only logs. *)
Definition closeBody (resp : Response) : M unit :=
  match CloseErr resp with
  | Some err =>
      emit (EvWarn (logTag ms)
              ("Failed to close response body when getting user data: " +:+ message err))
  | None => mret tt
  end.

Definition defer {A} (deferred : M unit) (body : M A) : M A :=
  a ← body; _ ← deferred; mret a.

(** The header of the request of [doGet]: the headers of the service,
    added one by one with [req.Header.Add] to the empty header of a new
    request. *)
Definition requestHeader : Header :=
  foldl (fun h kv => Header_Add R h kv.1 kv.2) ∅ (map_to_list (metadataHeaders ms)).

(** [doGet].  Any failure to read the cache file counts as a miss. *)
Definition doGet (url : string) : M (string * option error) :=
  '(cachedRespBytes, err) ← ReadFile (platform ms) (cachePath url);
  match err with
  | None => mret (cachedRespBytes, None)
  | Some _ =>
      match http_NewRequestErr R url with
      | Some err => mret ("", Some err)
      | None =>
          r ← RetryClient_Do R 10 (retryDelay ms) url requestHeader;
          match r with
          | inl err => mret ("", Some err)
          | inr resp =>
              defer (closeBody resp)
                (match ReadAllErr resp with
                 | Some err =>
                     mret ("", Some (WrapError err "Reading user data response body"))
                 | None =>
                     let respBytes := Body resp in
                     err ← WriteFile (platform ms) (cachePath url) respBytes;
                     match err with
                     | Some err => mret ("", Some (WrapError err "Caching response body"))
                     | None => mret (respBytes, None)
                     end
                 end)
          end
      end
  end.

Definition GetPublicKey : M (string * option error) :=
  if String.eqb (sshKeysPath ms) "" then mret ("", None)
  else
    err ← ensureMinimalNetworkSetup;
    match err with
    | Some err => mret ("", Some err)
    | None =>
        let url := metadataHost ms +:+ sshKeysPath ms in
        '(respBytes, err) ← doGet url;
        match err with
        | Some err => mret ("", Some (WrapErrorf err "Getting open ssh key from url " url ""))
        | None => mret (respBytes, None)
        end
    end.

Definition GetInstanceID : M (string * option error) :=
  if String.eqb (instanceIDPath ms) "" then mret ("", None)
  else
    err ← ensureMinimalNetworkSetup;
    match err with
    | Some err => mret ("", Some err)
    | None =>
        let url := metadataHost ms +:+ instanceIDPath ms in
        '(respBytes, err) ← doGet url;
        match err with
        | Some err => mret ("", Some (WrapErrorf err "Getting instance id from url " url ""))
        | None => mret (respBytes, None)
        end
    end.

Definition GetValueAtPath (path : string) : M (string * option error) :=
  if String.eqb path "" then
    mret ("", Some (Error "Can not retrieve metadata value for empthy path"))
  else
    err ← ensureMinimalNetworkSetup;
    match err with
    | Some err => mret ("", Some err)
    | None =>
        let url := metadataHost ms +:+ path in
        '(respBytes, err) ← doGet url;
        match err with
        | Some err => mret ("", Some (WrapErrorf err "Getting value from url " url ""))
        | None => mret (respBytes, None)
        end
    end.

Definition getUserData : M (UserDataContentsType * option error) :=
  err ← ensureMinimalNetworkSetup;
  match err with
  | Some err => mret (zeroUserData, Some err)
  | None =>
      let userDataURL := metadataHost ms +:+ userdataPath ms in
      '(respBytes, err) ← doGet userDataURL;
      match err with
      | Some err =>
          mret (zeroUserData,
                Some (WrapErrorf err "Getting user data from url " userDataURL ""))
      | None =>
          let '(userData, err) := json_Unmarshal R respBytes in
          match err with
          | Some err =>
              mret (userData, Some (WrapErrorf err "Unmarshalling user data '" respBytes "'"))
          | None => mret (userData, None)
          end
      end
  end.

Definition GetServerName : M (string * option error) :=
  '(userData, err) ← getUserData;
  match err with
  | Some err => mret ("", Some (WrapError err "Getting user data"))
  | None =>
      let serverName := Name (Server userData) in
      if Nat.eqb (String.length serverName) 0 then
        mret ("", Some (Error "Empty server name"))
      else mret (serverName, None)
  end.

Definition GetRegistryEndpoint : M (string * option error) :=
  '(userData, err) ← getUserData;
  match err with
  | Some err => mret ("", Some (WrapError err "Getting user data"))
  | None =>
      let endpoint := Endpoint (Registry userData) in
      let nameServers := Nameserver (DNS userData) in
      if Nat.ltb 0 (length nameServers) then
        '(endpoint, err) ← LookupHost (resolver ms) nameServers endpoint;
        match err with
        | Some err => mret ("", Some (WrapError err "Resolving registry endpoint"))
        | None => mret (endpoint, None)
        end
      else mret (endpoint, None)
  end.

Definition GetNetworks : M (Networks * option error) :=
  '(userData, err) ← getUserData;
  match err with
  | Some err => mret (∅, Some (WrapError err "Getting user data"))
  | None => mret (Networks_ userData, None)
  end.

End Service.

(** The constructors; [retryDelay] is a [time.Duration], in nanoseconds. *)
Definition NewHTTPMetadataServiceWithCustomRetryDelay
    (metadataHost : string) (metadataHeaders : gmap string string)
    (userdataPath instanceIDPath sshKeysPath : string)
    (resolver : DNSResolver) (platform : Platform) (retryDelay : Z)
  : httpMetadataService :=
  mkService metadataHost metadataHeaders userdataPath instanceIDPath sshKeysPath
            resolver platform "httpMetadataService" retryDelay.

(** [NewHTTPMetadataService]: the retry delay is one second. *)
Definition NewHTTPMetadataService
    (metadataHost : string) (metadataHeaders : gmap string string)
    (userdataPath instanceIDPath sshKeysPath : string)
    (resolver : DNSResolver) (platform : Platform) : httpMetadataService :=
  NewHTTPMetadataServiceWithCustomRetryDelay metadataHost metadataHeaders
    userdataPath instanceIDPath sshKeysPath resolver platform 1000000000.

End Infrastructure.

(* ===================================================================== *)
(** ** platform/net: the CentOS network manager *)
(* ===================================================================== *)

Module Net.

(** The Go files of the manager and of the interface configuration creator
    are not among the sources at hand; [centos_net_manager_test.go] is.  The
    definitions of this module follow section 4 of the design document, and
    take every literal (paths, file bodies, the restart command, the
    substrings of error texts) from that test. *)

(** Modelled from the spec: a discovered PhysicalInterface of
    [centos_net_manager.go] (name, MAC address, device-backing marker). *)
Record PhysicalInterface : Type := mkInterface {
  ifaceName : string;
  ifaceMAC : string;
  isPhysical : bool
}.

(** Modelled from the spec: an entry of the OS configuration tree that
    [centos_net_manager.go] writes, a file body or a symlink target. *)
Inductive Node : Type :=
| File (content : string)
| Symlink (target : string).

(** Modelled from the spec: a BroadcastBinding built by
    [centos_net_manager.go], a literal address or a deferred lookup. *)
Inductive InterfaceAddress : Type :=
| SimpleInterfaceAddress (iface ip : string)
| ResolvingInterfaceAddress (iface : string).

(** Modelled from the spec: the host as [centos_net_manager.go] sees it: the
    network-device tree, the configuration tree, the commands run so far and
    the binding sets handed to the address broadcaster (with whether a
    result channel came along). *)
Record Host : Type := mkHost {
  devices : list PhysicalInterface;
  files : gmap string Node;
  RunCommands : list (list string);
  Broadcasts : list (list InterfaceAddress * bool)
}.

(** Modelled from the spec: the failures the capabilities consumed by
    [centos_net_manager.go] can report (the test injects them as [GlobErr],
    [WriteFileError], [WriteFileErrors], [SymlinkError]). *)
Record Faults : Type := mkFaults {
  GlobErr : option error;
  WriteFileErrors : string -> option error;
  SymlinkError : option error;
  RunCommandErr : option error
}.

(** Modelled from the spec: the InterfaceConfiguration record of
    [interface_configuration_creator.go]: static fields or the dynamic
    marker, and the ordered DNS list. *)
Inductive AddressConfig : Type :=
| StaticAddress (address netmask broadcast gateway : string)
| DynamicAddress.

(** Modelled from the spec: InterfaceConfiguration, see [AddressConfig]
    ([interface_configuration_creator.go]). *)
Record InterfaceConfiguration : Type := mkConfiguration {
  Name : string;
  Address : AddressConfig;
  DNSServers : list string
}.

(** *** The interface configuration creator (section 4.2) *)

(** Modelled from the spec: decimal digit of an octet, for the IPv4 parser
    of [interface_configuration_creator.go]. *)
Definition digit (c : ascii) : option N :=
  let n := N_of_ascii c in
  if (48 <=? n)%N && (n <=? 57)%N then Some (n - 48)%N else None.

(** Modelled from the spec: one octet of a dotted quad, at most 255
    ([interface_configuration_creator.go]). *)
Fixpoint parseOctetFrom (acc : N) (s : string) : option N :=
  match s with
  | EmptyString => Some acc
  | String c rest =>
      match digit c with
      | Some d =>
          let acc' := (10 * acc + d)%N in
          if (acc' <=? 255)%N then parseOctetFrom acc' rest else None
      | None => None
      end
  end.

(** Modelled from the spec: an octet has at least one digit
    ([interface_configuration_creator.go]). *)
Definition parseOctet (s : string) : option N :=
  match s with
  | EmptyString => None
  | _ => parseOctetFrom 0 s
  end.

(** Modelled from the spec: the fields of a dotted quad, split at the dots
    ([interface_configuration_creator.go]). *)
Fixpoint splitDots (cur : string) (s : string) : list string :=
  match s with
  | EmptyString => [cur]
  | String c rest =>
      if Ascii.eqb c "."%char then cur :: splitDots EmptyString rest
      else splitDots (cur +:+ String c EmptyString) rest
  end.

(** Modelled from the spec: "parses IP/netmask/gateway as IPv4 dotted-quad"
    ([interface_configuration_creator.go]). *)
Definition parseIPv4 (s : string) : option (N * N * N * N) :=
  match List.map parseOctet (splitDots EmptyString s) with
  | [Some a; Some b; Some c; Some d] => Some (a, b, c, d)
  | _ => None
  end.

(** Modelled from the spec: decimal text of an octet, for the computed
    broadcast address ([interface_configuration_creator.go]). *)
Definition digitChar (d : N) : string :=
  String (ascii_of_N (48 + d)) EmptyString.

(** Modelled from the spec: decimal text of an octet, without leading
    zeros ([interface_configuration_creator.go]). *)
Definition showOctet (n : N) : string :=
  let h := (n / 100)%N in
  let t := ((n / 10) mod 10)%N in
  let u := (n mod 10)%N in
  if (0 <? h)%N then digitChar h +:+ digitChar t +:+ digitChar u
  else if (0 <? t)%N then digitChar t +:+ digitChar u
  else digitChar u.

(** Modelled from the spec: "computing the broadcast address is
    IP | (~netmask) applied per octet"
    ([interface_configuration_creator.go]). *)
Definition broadcastOctet (ip mask : N) : N :=
  N.lor ip (N.lxor mask 255).

(** Modelled from the spec: the dotted quad of the broadcast address
    ([interface_configuration_creator.go]). *)
Definition broadcastAddress (ip mask : N * N * N * N) : string :=
  let '(a, b, c, d) := ip in
  let '(ma, mb, mc, md) := mask in
  showOctet (broadcastOctet a ma) +:+ "." +:+ showOctet (broadcastOctet b mb) +:+ "."
  +:+ showOctet (broadcastOctet c mc) +:+ "." +:+ showOctet (broadcastOctet d md).

(** Modelled from the spec: the contract
    [Create(networkSpec, interfaceName) -> (InterfaceConfiguration, error)]
    of [interface_configuration_creator.go].  A manual network is validated
    and its broadcast address computed; a dynamic one passes its DNS
    servers through.  A vip network has no interface configuration; the
    manager never asks for one. *)
Definition Create (n : Network) (interfaceName : string)
  : error + InterfaceConfiguration :=
  match Type_ n with
  | NetworkTypeDynamic => inr (mkConfiguration interfaceName DynamicAddress (Settings.DNS n))
  | NetworkTypeManual =>
      match parseIPv4 (IP n), parseIPv4 (Netmask n), parseIPv4 (Gateway n) with
      | Some ip, Some mask, Some _ =>
          inr (mkConfiguration interfaceName
                 (StaticAddress (IP n) (Netmask n) (broadcastAddress ip mask) (Gateway n))
                 (Settings.DNS n))
      | None, _, _ => inl (Error ("Invalid ip address: " +:+ IP n))
      | _, None, _ => inl (Error ("Invalid netmask: " +:+ Netmask n))
      | _, _, None => inl (Error ("Invalid gateway: " +:+ Gateway n))
      end
  | NetworkTypeVIP => inl (Error "A vip network has no interface configuration")
  end.

(** *** Association (section 4.1) *)

(** Modelled from the spec: "partition the spec into networks of type vip
    (ignored entirely) and the rest" ([centos_net_manager.go]). *)
Definition nonVipNetworks (networks : Networks) : list (string * Network) :=
  List.filter (fun kv => negb (IsVIP (snd kv))) (map_to_list networks).

(** Modelled from the spec: "only physical interfaces are eligible targets"
    ([centos_net_manager.go]). *)
Definition physicalInterfaces (ifaces : list PhysicalInterface)
  : list PhysicalInterface :=
  List.filter isPhysical ifaces.

(** Modelled from the spec: the interface a network is bound to, in
    [centos_net_manager.go]: by MAC address when it declares one (no match
    yields no configuration), else the only physical interface of the
    host. *)
Definition bindInterface (ifaces : list PhysicalInterface) (n : Network)
  : option PhysicalInterface :=
  if String.eqb (Mac n) "" then
    match physicalInterfaces ifaces with
    | [i] => Some i
    | _ => None
    end
  else
    List.find (fun i => String.eqb (ifaceMAC i) (Mac n)) (physicalInterfaces ifaces).

(** Modelled from the spec: one step of the association of
    [centos_net_manager.go]: the network is bound to its interface, if it
    has one.  Bindings are kept per interface name, the data model having
    one configuration per interface; a later binding of an interface
    replaces an earlier one. *)
Definition bindNetwork (ifaces : list PhysicalInterface)
    (bound : gmap string Network) (n : Network) : gmap string Network :=
  match bindInterface ifaces n with
  | Some i => <[ifaceName i := n]> bound
  | None => bound
  end.

(** Modelled from the spec: the association of [centos_net_manager.go], "a
    pure function from (interfaces, specs) to bindings". *)
Definition associate (ifaces : list PhysicalInterface) (nets : list (string * Network))
  : gmap string Network :=
  fold_left (fun bound kv => bindNetwork ifaces bound (snd kv)) nets ∅.

(** Modelled from the spec: "for each bound (interface, network) pair,
    invoke the Configuration Creator"; the first failure ends the stage
    ([centos_net_manager.go]). *)
Fixpoint createConfigurations (bindings : list (string * Network))
  : error + list InterfaceConfiguration :=
  match bindings with
  | [] => inr []
  | (interfaceName, n) :: rest =>
      match Create n interfaceName with
      | inl err => inl err
      | inr c =>
          match createConfigurations rest with
          | inl err => inl err
          | inr cs => inr (c :: cs)
          end
      end
  end.

(** Modelled from the spec: whether a configuration carries the dynamic
    marker ([centos_net_manager.go]). *)
Definition isDHCP (c : InterfaceConfiguration) : bool :=
  match Address c with DynamicAddress => true | StaticAddress _ _ _ _ => false end.

(** Modelled from the spec: the static configurations, in order
    ([centos_net_manager.go]). *)
Definition staticConfigurations (cs : list InterfaceConfiguration) :=
  List.filter (fun c => negb (isDHCP c)) cs.

(** Modelled from the spec: the dynamic configurations, in order
    ([centos_net_manager.go]). *)
Definition dhcpConfigurations (cs : list InterfaceConfiguration) :=
  List.filter isDHCP cs.

(** Modelled from the spec: the DNS servers of the network marked default
    for DNS among those that are not vip ([centos_net_manager.go]); the
    test's static file carries the servers of the dynamic network so
    marked. *)
Definition defaultDNSServers (nets : list (string * Network)) : list string :=
  match List.find (fun kv => existsb (String.eqb "dns") (Default (snd kv))) nets with
  | Some kv => Settings.DNS (snd kv)
  | None => []
  end.

(** *** Rendering (section 4.1) *)

(** Modelled from the spec: the line feed that ends each line of the files
    [centos_net_manager.go] writes. *)
Definition nl : string := String "010"%char EmptyString.

(** Modelled from the spec: the tab that indents the request clause of
    dhclient.conf ([centos_net_manager.go]). *)
Definition tab : string := String "009"%char EmptyString.

(** Modelled from the spec: "up to two DNS server lines in specification
    order (only emitted if DNS servers are present)"
    ([centos_net_manager.go]). *)
Definition dnsLines (dns : list string) : string :=
  match dns with
  | [] => ""
  | [d1] => "DNS1=" +:+ d1 +:+ nl
  | d1 :: d2 :: _ => "DNS1=" +:+ d1 +:+ nl +:+ "DNS2=" +:+ d2 +:+ nl
  end.

(** Modelled from the spec: the network-script record of an interface in
    [centos_net_manager.go], static or dhcp, with the fields in the fixed
    order of the design (and of the test's expected files). *)
Definition ifcfgContent (dns : list string) (c : InterfaceConfiguration) : string :=
  match Address c with
  | StaticAddress address netmask broadcast gateway =>
      "DEVICE=" +:+ Name c +:+ nl +:+
      "BOOTPROTO=static" +:+ nl +:+
      "IPADDR=" +:+ address +:+ nl +:+
      "NETMASK=" +:+ netmask +:+ nl +:+
      "BROADCAST=" +:+ broadcast +:+ nl +:+
      "GATEWAY=" +:+ gateway +:+ nl +:+
      "ONBOOT=yes" +:+ nl +:+
      "NM_CONTROLLED=no" +:+ nl +:+
      "PEERDNS=no" +:+ nl +:+
      dnsLines dns
  | DynamicAddress =>
      "DEVICE=" +:+ Name c +:+ nl +:+
      "BOOTPROTO=dhcp" +:+ nl +:+
      "ONBOOT=yes" +:+ nl +:+
      "PEERDNS=yes" +:+ nl
  end.

(** Modelled from the spec: the quotation mark around the hostname
    placeholder of dhclient.conf ([centos_net_manager.go]). *)
Definition dquote : string := String "034"%char EmptyString.

(** Modelled from the spec: servers "in order, comma-separated"
    ([centos_net_manager.go]). *)
Fixpoint commaSeparated (l : list string) : string :=
  match l with
  | [] => ""
  | [x] => x
  | x :: rest => x +:+ ", " +:+ commaSeparated rest
  end.

(** Modelled from the spec: the shared DHCP client configuration body of
    [centos_net_manager.go]; the prepend clause is present only when
    dynamic networks supply DNS servers. *)
Definition dhclientContent (dns : list string) : string :=
  "# Generated by bosh-agent" +:+ nl +:+
  nl +:+
  "option rfc3442-classless-static-routes code 121 = array of unsigned integer 8;" +:+ nl +:+
  nl +:+
  "send host-name " +:+ dquote +:+ "<hostname>" +:+ dquote +:+ ";" +:+ nl +:+
  nl +:+
  "request subnet-mask, broadcast-address, time-offset, routers," +:+ nl +:+
  tab +:+ "domain-name, domain-name-servers, domain-search, host-name," +:+ nl +:+
  tab +:+ "netbios-name-servers, netbios-scope, interface-mtu," +:+ nl +:+
  tab +:+ "rfc3442-classless-static-routes, ntp-servers;" +:+ nl +:+
  nl +:+
  match dns with
  | [] => ""
  | _ => "prepend domain-name-servers " +:+ commaSeparated dns +:+ ";" +:+ nl
  end.

(** Modelled from the spec: the per-interface network script path
    ([centos_net_manager.go]). *)
Definition ifcfgPath (name : string) : string :=
  "/etc/sysconfig/network-scripts/ifcfg-" +:+ name.

(** Modelled from the spec: the canonical path of the shared DHCP client
    configuration ([centos_net_manager.go]). *)
Definition dhclientConfPath : string := "/etc/dhcp/dhclient.conf".

(** Modelled from the spec: the per-interface path that links to the shared
    DHCP client configuration ([centos_net_manager.go]). *)
Definition dhclientLinkPath (name : string) : string :=
  "/etc/dhcp/dhclient-" +:+ name +:+ ".conf".

(** Modelled from the spec: a Rendered Config Artifact with text content
    ([centos_net_manager.go]). *)
Record Artifact : Type := mkArtifact {
  path : string;
  content : string
}.

(** Modelled from the spec: the DNS servers supplied by the dynamic
    networks, in order ([centos_net_manager.go]). *)
Definition dhcpDNSServers (cs : list InterfaceConfiguration) : list string :=
  List.concat (List.map DNSServers (dhcpConfigurations cs)).

(** Modelled from the spec: every artifact with content that a pass of
    [centos_net_manager.go] renders: one ifcfg file per configuration
    (static ones first), then the shared DHCP file when a dynamic network
    exists. *)
Definition renderArtifacts (dns : list string) (cs : list InterfaceConfiguration)
  : list Artifact :=
  List.map (fun c => mkArtifact (ifcfgPath (Name c)) (ifcfgContent dns c))
           (staticConfigurations cs ++ dhcpConfigurations cs)
  ++ match dhcpConfigurations cs with
     | [] => []
     | _ => [mkArtifact dhclientConfPath (dhclientContent (dhcpDNSServers cs))]
     end.

(** *** Idempotent write and restart decision (section 4.1) *)

(** Modelled from the spec: an artifact's "new content differs from
    existing content (including the case where the file does not yet
    exist)" ([centos_net_manager.go]). *)
Definition differs (fs : gmap string Node) (a : Artifact) : bool :=
  match fs !! path a with
  | Some (File existing) => negb (String.eqb existing (content a))
  | _ => true
  end.

(** Modelled from the spec: the idempotent write of one artifact in
    [centos_net_manager.go]: compare, then write; a write failure is
    wrapped with the failing path.  The result tells whether the content
    changed. *)
Definition writeArtifact (faults : Faults) (a : Artifact) (fs : gmap string Node)
  : (error + bool) * gmap string Node :=
  let changed := differs fs a in
  match WriteFileErrors faults (path a) with
  | Some err => (inl (WrapErrorf err "Writing to " (path a) ""), fs)
  | None => (inr changed, <[path a := File (content a)]> fs)
  end.

(** Modelled from the spec: the single "network changed" flag across all
    artifacts; the first failure aborts and earlier writes remain
    ([centos_net_manager.go]). *)
Fixpoint writeArtifacts (faults : Faults) (arts : list Artifact) (changed : bool)
    (fs : gmap string Node) : (error + bool) * gmap string Node :=
  match arts with
  | [] => (inr changed, fs)
  | a :: rest =>
      match writeArtifact faults a fs with
      | (inl err, fs') => (inl err, fs')
      | (inr c, fs') => writeArtifacts faults rest (changed || c) fs'
      end
  end.

(** Modelled from the spec: "each DHCP-bound interface gets a symlink from
    its own per-interface path to that canonical path"; a failure is
    wrapped with the failing path ([centos_net_manager.go]).  The links do
    not take part in the restart decision. *)
Fixpoint writeSymlinks (faults : Faults) (names : list string) (fs : gmap string Node)
  : option error * gmap string Node :=
  match names with
  | [] => (None, fs)
  | name :: rest =>
      match SymlinkError faults with
      | Some err => (Some (WrapErrorf err "Symlinking to " (dhclientLinkPath name) ""), fs)
      | None =>
          writeSymlinks faults rest (<[dhclientLinkPath name := Symlink dhclientConfPath]> fs)
      end
  end.

(** Modelled from the spec: the OS network-restart command of
    [centos_net_manager.go], as the test expects it. *)
Definition restartCommand : list string := ["service"; "network"; "restart"].

(** Modelled from the spec: "one BroadcastBinding per associated, non-vip
    interface": the literal IP of a static network, a deferred lookup for a
    dynamic one ([centos_net_manager.go]). *)
Definition broadcastBinding (c : InterfaceConfiguration) : InterfaceAddress :=
  match Address c with
  | StaticAddress address _ _ _ => SimpleInterfaceAddress (Name c) address
  | DynamicAddress => ResolvingInterfaceAddress (Name c)
  end.

(** Modelled from the spec: the stages of a pass of
    [centos_net_manager.go] before anything is written: discover,
    associate, configure. *)
Definition buildInterfaces (faults : Faults) (networks : Networks) (h : Host)
  : error + list InterfaceConfiguration :=
  match GlobErr faults with
  | Some err => inl (WrapError err "Getting network interfaces")
  | None =>
      match createConfigurations
              (map_to_list (associate (devices h) (nonVipNetworks networks))) with
      | inl err => inl (WrapError err "Creating interface configurations")
      | inr cs => inr cs
      end
  end.

(** Modelled from the spec: the artifacts a pass renders for a
    specification ([centos_net_manager.go]). *)
Definition artifactsFor (networks : Networks) (cs : list InterfaceConfiguration)
  : list Artifact :=
  renderArtifacts (defaultDNSServers (nonVipNetworks networks)) cs.

(** Modelled from the spec: [SetupNetworking(spec, resultChannel)] of
    [centos_net_manager.go]:
    discover, associate, configure, render and write with the restart
    decision, restart if something changed, hand the bindings to the
    broadcaster.  The first failure of a stage ends the call; what was
    written stays.  The broadcast itself runs apart from the caller and is
    not followed here. *)
Definition SetupNetworking (faults : Faults) (networks : Networks) (errCh : bool)
    (h : Host) : option error * Host :=
  match buildInterfaces faults networks h with
  | inl err => (Some err, h)
  | inr cs =>
      match writeArtifacts faults (artifactsFor networks cs) false (files h) with
      | (inl err, fs1) =>
          (Some err, mkHost (devices h) fs1 (RunCommands h) (Broadcasts h))
      | (inr changed, fs1) =>
          match writeSymlinks faults (List.map Name (dhcpConfigurations cs)) fs1 with
          | (Some err, fs2) =>
              (Some err, mkHost (devices h) fs2 (RunCommands h) (Broadcasts h))
          | (None, fs2) =>
              let commands :=
                if changed then RunCommands h ++ [restartCommand] else RunCommands h in
              match (if changed then RunCommandErr faults else None) with
              | Some err => (Some err, mkHost (devices h) fs2 commands (Broadcasts h))
              | None =>
                  let bindings :=
                    List.map broadcastBinding
                      (staticConfigurations cs ++ dhcpConfigurations cs) in
                  (None,
                   mkHost (devices h) fs2 commands (Broadcasts h ++ [(bindings, errCh)]))
              end
          end
      end
  end.


End Net.

(* ===================================================================== *)
(** ** Fixtures: the hosts and services the examples run on *)
(* ===================================================================== *)

Module Fixtures.
Import Infrastructure.

(** A platform on which nothing fails, and whose network setup configures
    the interfaces it is given and writes nothing the service reads. *)
Definition healthyPlatform : Platform :=
  mkPlatform (fun _ => None) (fun _ => None) (fun _ => None) (fun _ _ => None)
             (fun networks w => (files w, List.map fst (map_to_list networks))).

Definition literalResolver : DNSResolver :=
  mkDNSResolver (fun _ host => ("10.0.0.7", None)).

Definition userDataBody : string := "user-data-document-of-vm-1".

Definition userDataNetworks : Networks :=
  {[ "default" := zeroNetwork NetworkTypeDynamic ]}.

Definition parsedUserData : UserDataContentsType :=
  mkUserData (mkServer "vm-1") (mkRegistry "http://registry.internal:25777")
             (mkDNS ["10.0.0.2"]) userDataNetworks.

Definition toUpper (c : ascii) : ascii :=
  let n := nat_of_ascii c in
  if Nat.leb 97 n && Nat.leb n 122 then ascii_of_nat (n - 32) else c.

Definition toLower (c : ascii) : ascii :=
  let n := nat_of_ascii c in
  if Nat.leb 65 n && Nat.leb n 90 then ascii_of_nat (n + 32) else c.

(** The canonical form of a header key made of letters, digits and
    hyphens: the first letter and every letter after a hyphen in upper
    case, the others in lower case. *)
Fixpoint canonicalFrom (upper : bool) (key : string) : string :=
  match key with
  | EmptyString => EmptyString
  | String c rest =>
      String (if upper then toUpper c else toLower c)
             (canonicalFrom (Ascii.eqb c "-") rest)
  end.

(** A retrying client that tries again after an error and answers with
    the outcome of its last attempt. *)
Definition retryOnError (r : error + Response) : bool :=
  match r with inl _ => true | inr _ => false end.

(** A runtime whose network answers every request with [userDataBody],
    after failing the first two attempts.  The digest is a stand-in: the
    URL itself. *)
Definition runtime : Runtime :=
  mkRuntime
    (fun url => url)
    (fun bytes =>
       if String.eqb bytes userDataBody then (parsedUserData, None)
       else (zeroUserData, Some (Error "invalid character")))
    (fun _ => None)
    (canonicalFrom true)
    (fun n _ _ =>
       if Nat.ltb n 2 then inl (Error "connection refused")
       else inr (mkResponse 200 userDataBody None None))
    retryOnError
    (fun r => r).

(** A service with every path configured. *)
Definition service : httpMetadataService :=
  NewHTTPMetadataService "http://169.254.169.254" ∅
    "/user-data" "/instanceid" "/ssh-keys" literalResolver healthyPlatform.

(** A service created with empty paths, as for a provider without them. *)
Definition bareService : httpMetadataService :=
  NewHTTPMetadataService "http://169.254.169.254" ∅ "" "" "" literalResolver healthyPlatform.

Definition freshWorld : World := mkWorld ∅ [] 0.

Definition cachedWorld : World :=
  mkWorld {[ cachePath runtime "http://169.254.169.254/user-data" := "cached" ]} ["eth0"] 0.

End Fixtures.

Module NetFixtures.
Import Net.

(** The networks and expected files of [centos_net_manager_test.go]. *)
Definition dhcpNetwork : Network :=
  mkNetwork NetworkTypeDynamic "" "" "" "fake-dhcp-mac-address"
            ["8.8.8.8"; "9.9.9.9"] ["dns"].

Definition staticNetwork : Network :=
  mkNetwork NetworkTypeManual "1.2.3.4" "255.255.255.0" "3.4.5.6"
            "fake-static-mac-address" [] [].

Definition changingStaticNetwork : Network :=
  mkNetwork NetworkTypeManual "1.2.3.5" "255.255.255.0" "3.4.5.6"
            "ethstatict-that-changes" [] [].

Definition staticNetworkWithoutMAC : Network :=
  mkNetwork NetworkTypeManual "1.2.3.4" "255.255.255.0" "3.4.5.6" ""
            ["8.8.8.8"; "9.9.9.9"] ["dns"].

Definition dhcpNetworkWithoutDNS : Network :=
  mkNetwork NetworkTypeDynamic "" "" "" "fake-dhcp-mac-address" [] [].

Definition vipNetwork : Network :=
  mkNetwork NetworkTypeVIP "9.8.7.6" "" "" "fake-vip-mac-address"
            ["8.8.8.8"; "9.9.9.9"] ["dns"].

Definition expectedNetworkConfigurationForStatic : string :=
  "DEVICE=ethstatic" +:+ nl +:+
  "BOOTPROTO=static" +:+ nl +:+
  "IPADDR=1.2.3.4" +:+ nl +:+
  "NETMASK=255.255.255.0" +:+ nl +:+
  "BROADCAST=1.2.3.255" +:+ nl +:+
  "GATEWAY=3.4.5.6" +:+ nl +:+
  "ONBOOT=yes" +:+ nl +:+
  "NM_CONTROLLED=no" +:+ nl +:+
  "PEERDNS=no" +:+ nl +:+
  "DNS1=8.8.8.8" +:+ nl +:+
  "DNS2=9.9.9.9" +:+ nl.

Definition expectedNetworkConfigurationForDHCP : string :=
  "DEVICE=ethdhcp" +:+ nl +:+
  "BOOTPROTO=dhcp" +:+ nl +:+
  "ONBOOT=yes" +:+ nl +:+
  "PEERDNS=yes" +:+ nl.

Definition expectedDhclientPreamble : string :=
  "# Generated by bosh-agent" +:+ nl +:+
  nl +:+
  "option rfc3442-classless-static-routes code 121 = array of unsigned integer 8;" +:+ nl +:+
  nl +:+
  "send host-name " +:+ dquote +:+ "<hostname>" +:+ dquote +:+ ";" +:+ nl +:+
  nl +:+
  "request subnet-mask, broadcast-address, time-offset, routers," +:+ nl +:+
  tab +:+ "domain-name, domain-name-servers, domain-search, host-name," +:+ nl +:+
  tab +:+ "netbios-name-servers, netbios-scope, interface-mtu," +:+ nl +:+
  tab +:+ "rfc3442-classless-static-routes, ntp-servers;" +:+ nl +:+
  nl.

Definition expectedDhclientConfiguration : string :=
  expectedDhclientPreamble +:+ "prepend domain-name-servers 8.8.8.8, 9.9.9.9;" +:+ nl.

(** [stubInterfacesWithVirtual]: the named physical devices carry the MAC
    address of their network, the virtual ones the address "virtual". *)
Definition stubInterfacesWithVirtual (physical : list (string * Network))
    (virtual : list string) : list PhysicalInterface :=
  List.map (fun kv => mkInterface (fst kv) (Mac (snd kv)) true) physical
  ++ List.map (fun name => mkInterface name "virtual" false) virtual.

Definition stubInterfaces (physical : list (string * Network)) : list PhysicalInterface :=
  stubInterfacesWithVirtual physical [].

Definition noFaults : Faults := mkFaults None (fun _ => None) None None.

(** [fs.WriteFileError = errors.New("fs-write-file-error")] *)
Definition failingWrites : Faults :=
  mkFaults None (fun _ => Some (Error "fs-write-file-error")) None None.

Definition twoNetworks : Networks :=
  <["dhcp-network" := dhcpNetwork]> (<["static-network" := staticNetwork]> ∅).

Definition threeNetworks : Networks :=
  <["changing-static-network" := changingStaticNetwork]> twoNetworks.

Definition twoDevices : list PhysicalInterface :=
  stubInterfaces [("ethdhcp", dhcpNetwork); ("ethstatic", staticNetwork)].

Definition threeDevices : list PhysicalInterface :=
  stubInterfaces [("ethdhcp", dhcpNetwork);
                  ("ethstatic-that-changes", changingStaticNetwork);
                  ("ethstatic", staticNetwork)].

(** A host on which nothing has been written yet. *)
Definition freshHost : Host := mkHost twoDevices ∅ [] [].

(** The host of "restarts the networks if any ifconfig file changes". *)
Definition hostWithOneStaleFile : Host :=
  mkHost threeDevices
    (<["/etc/sysconfig/network-scripts/ifcfg-ethstatic"
       := File expectedNetworkConfigurationForStatic]>
     (<["/etc/dhcp/dhclient.conf" := File expectedDhclientConfiguration]> ∅))
    [] [].

(** The host of "doesn't restart the networks if ifcfg and
    /etc/dhcp/dhclient.conf don't change". *)
Definition convergedHost : Host :=
  mkHost twoDevices
    (<["/etc/sysconfig/network-scripts/ifcfg-ethstatic"
       := File expectedNetworkConfigurationForStatic]>
     (<["/etc/sysconfig/network-scripts/ifcfg-ethdhcp"
        := File expectedNetworkConfigurationForDHCP]>
      (<["/etc/dhcp/dhclient.conf" := File expectedDhclientConfiguration]> ∅)))
    [] [].

End NetFixtures.

(* ===================================================================== *)
(** ** More fixtures *)
(* ===================================================================== *)

Module MoreFixtures.
Import Infrastructure.

(** A platform whose file system refuses every write. *)
Definition readOnlyPlatform : Platform :=
  mkPlatform (fun _ => None) (fun _ => Some (Error "read-only file system"))
             (fun _ => None) (fun _ _ => None)
             (fun networks w => (files w, List.map fst (map_to_list networks))).

Definition readOnlyService : httpMetadataService :=
  NewHTTPMetadataService "http://169.254.169.254" ∅
    "/user-data" "/instanceid" "/ssh-keys" Fixtures.literalResolver readOnlyPlatform.

(** A world whose cache holds a user-data document that does not parse. *)
Definition poisonedWorld : World :=
  mkWorld {[ cachePath Fixtures.runtime "http://169.254.169.254/user-data" := "<html>" ]}
          ["eth0"] 0.

(** A runtime whose network answers every request with a page that is no
    user-data document. *)
Definition garbledRuntime : Runtime :=
  mkRuntime
    (fun url => url)
    (fun bytes =>
       if String.eqb bytes Fixtures.userDataBody then (Fixtures.parsedUserData, None)
       else (zeroUserData, Some (Error "invalid character")))
    (fun _ => None)
    (Fixtures.canonicalFrom true)
    (fun _ _ _ => inr (mkResponse 200 "<html>" None None))
    Fixtures.retryOnError
    (fun r => r).

(** A service whose headers hold one key twice, in two spellings. *)
Definition tokenService : httpMetadataService :=
  NewHTTPMetadataService "http://169.254.169.254"
    {[ "x-token" := "a"; "X-Token" := "b"; "metadata-flavor" := "Google" ]}
    "/user-data" "/instanceid" "/ssh-keys" Fixtures.literalResolver
    Fixtures.healthyPlatform.

End MoreFixtures.

Module MoreObservations.
Import Infrastructure.

Definition isWriteFile (e : event) : bool :=
  match e with EvWriteFile _ _ => true | _ => false end.

(** Whether an event, if it is a call of the file system, is about the file
    at [path]. *)
Definition aboutFile (path : string) (e : event) : Prop :=
  match e with
  | EvReadFile p | EvWriteFile p _ => p = path
  | _ => True
  end.

(** The ensure step, run in [w], does not fail and leaves the file at
    [path] as it is. *)
Definition ensureKeeps (ms : httpMetadataService) (path : string) (w : World) : Prop :=
  value (ensureMinimalNetworkSetup ms w) = None /\
  files (world (ensureMinimalNetworkSetup ms w)) !! path = files w !! path.

(** The values the headers of the service give under the canonical key
    [key]: those of the entries whose key has that canonical form, and none
    if there is no such entry. *)
Definition valuesUnder (R : Runtime) (ms : httpMetadataService) (key : string)
  : option (gmultiset string) :=
  match List.filter
          (fun kv => bool_decide (textproto_CanonicalMIMEHeaderKey R kv.1 = key))
          (map_to_list (metadataHeaders ms)) with
  | [] => None
  | entries => Some (list_to_set_disj (entries.*2))
  end.

End MoreObservations.

(* ===================================================================== *)
(** ** What the properties of the metadata service speak about *)
(* ===================================================================== *)

Module Observations.
Import Infrastructure.

(** *** Classifying events *)

Definition isEnsureStep (e : event) : bool :=
  match e with
  | EvGetConfiguredNetworkInterfaces | EvSetupNetworking _ => true
  | _ => false
  end.

Definition isSetupNetworking (e : event) : bool :=
  match e with EvSetupNetworking _ => true | _ => false end.

Definition isHTTPRequest (e : event) : bool :=
  match e with EvHTTPRequest _ _ _ => true | _ => false end.

Definition isCacheAccess (e : event) : bool :=
  match e with EvReadFile _ | EvWriteFile _ _ => true | _ => false end.

Definition isLookupHost (e : event) : bool :=
  match e with EvLookupHost _ _ => true | _ => false end.

(** A computation that stays away from the platform's network calls and
    from the resolver, and leaves the configured interfaces alone:
    what holds of everything [doGet] does. *)
Definition fetchOnly {A} (m : M A) : Prop :=
  forall w,
    List.filter isEnsureStep (events (m w)) = [] /\
    List.filter isLookupHost (events (m w)) = [] /\
    configuredInterfaces (world (m w)) = configuredInterfaces w.

(** The claim "an empty configured path means: empty value, no error,
    nothing asked of the network", for one call in one world. *)
Definition returnsEmptyWithoutFetching {A} (zero : A) (m : M (A * option error))
    (w : World) : Prop :=
  value (m w) = (zero, None) /\
  List.filter isEnsureStep (events (m w)) = [] /\
  List.filter isHTTPRequest (events (m w)) = [].

(** The calls that fetch metadata, each with the projection of its error
    result. *)
Inductive Fetch (R : Runtime) (ms : httpMetadataService)
  : forall A : Type, (A -> option error) -> M A -> Prop :=
| FetchPublicKey :
    sshKeysPath ms <> "" -> Fetch R ms (string * option error) snd (GetPublicKey R ms)
| FetchInstanceID :
    instanceIDPath ms <> "" -> Fetch R ms (string * option error) snd (GetInstanceID R ms)
| FetchValueAtPath path :
    path <> "" -> Fetch R ms (string * option error) snd (GetValueAtPath R ms path)
| FetchUserData :
    Fetch R ms (UserDataContentsType * option error) snd (getUserData R ms)
| FetchServerName :
    Fetch R ms (string * option error) snd (GetServerName R ms)
| FetchRegistryEndpoint :
    Fetch R ms (string * option error) snd (GetRegistryEndpoint R ms)
| FetchNetworks :
    Fetch R ms (Networks * option error) snd (GetNetworks R ms).

(** The failure of the network-ensure step in world [w], if the platform
    makes it fail there: of the query, or of the setup that an empty list
    triggers. *)
Definition ensureFailure (ms : httpMetadataService) (w : World) : option error :=
  match GetConfiguredNetworkInterfacesErr (platform ms) w with
  | Some cause => Some cause
  | None =>
      match configuredInterfaces w with
      | [] => SetupNetworkingErr (platform ms) minimalNetworks w
      | _ :: _ => None
      end
  end.

(** Whether the ensure step sets up networking in world [w]: the query
    succeeds and reports no interface. *)
Definition needsSetup (ms : httpMetadataService) (w : World) : bool :=
  match GetConfiguredNetworkInterfacesErr (platform ms) w, configuredInterfaces w with
  | None, [] => true
  | _, _ => false
  end.

(** The warning the deferred close of a response body leaves in the log,
    if any. *)
Definition closeLog (ms : httpMetadataService) (resp : Response) : list event :=
  match CloseErr resp with
  | Some err =>
      [EvWarn (logTag ms)
         ("Failed to close response body when getting user data: " +:+ message err)]
  | None => []
  end.

(** The cache file of a URL exists and can be read: it holds [bytes]. *)
Definition cacheHit (R : Runtime) (ms : httpMetadataService) (url : string)
    (w : World) (bytes : string) : Prop :=
  ReadFileErr (platform ms) (cachePath R url) = None /\
  files w !! cachePath R url = Some bytes.

(** The cache file of a URL cannot be read, or is not there. *)
Definition cacheMiss (R : Runtime) (ms : httpMetadataService) (url : string)
    (w : World) : Prop :=
  ReadFileErr (platform ms) (cachePath R url) <> None \/
  files w !! cachePath R url = None.

(** The sequence shared by the three string fetches: ensure a network, get
    the URL, wrap a failure of the get. *)
Definition ensureAndGet (R : Runtime) (ms : httpMetadataService)
    (url what : string) : M (string * option error) :=
  err ← ensureMinimalNetworkSetup ms;
  match err with
  | Some err => mret ("", Some err)
  | None =>
      '(respBytes, err) ← doGet R ms url;
      match err with
      | Some err => mret ("", Some (WrapErrorf err what url ""))
      | None => mret (respBytes, None)
      end
  end.

(** What "runs the network-ensure step first" says of a computation [m]
    started in world [w].  The networks handed to [SetupNetworking] are
    written out: one network, under the name eth0, dynamic and otherwise
    empty. *)
Definition ensuresNetworkFirst (ms : httpMetadataService) {A}
    (errOf : A -> option error) (m : M A) (w : World) : Prop :=
  (exists rest, events (m w) = EvGetConfiguredNetworkInterfaces :: rest) /\
  List.filter isSetupNetworking (events (m w))
    = (if needsSetup ms w
       then [EvSetupNetworking
               {[ "eth0" := mkNetwork NetworkTypeDynamic "" "" "" "" [] [] ]}]
       else []) /\
  (needsSetup ms w = false ->
     configuredInterfaces (world (m w)) = configuredInterfaces w) /\
  (forall cause, ensureFailure ms w = Some cause ->
     (exists e, errOf (value (m w)) = Some e /\ wraps cause e) /\
     List.filter isHTTPRequest (events (m w)) = [] /\
     List.filter isCacheAccess (events (m w)) = []).

(** What a computation built on the ensure step looks like from outside:
    it stops with the step's error, wrapped or not, or goes on without
    touching the network configuration again. *)
Definition afterEnsure (ms : httpMetadataService) {A}
    (errOf : A -> option error) (m : M A) (w : World) : Prop :=
  let '(e, w1, ev1) := ensureMinimalNetworkSetup ms w in
  match e with
  | Some err =>
      (exists e', errOf (value (m w)) = Some e' /\ (e' = err \/ wraps err e')) /\
      world (m w) = w1 /\ events (m w) = ev1
  | None =>
      exists rest,
        events (m w) = ev1 ++ rest /\
        List.filter isSetupNetworking rest = [] /\
        configuredInterfaces (world (m w)) = configuredInterfaces w1
  end.

(** [n] calls in a row, with their results. *)
Fixpoint times {A} (n : nat) (m : M A) : M (list A) :=
  match n with
  | O => mret []
  | S n' => a ← m; rest ← times n' m; mret (a :: rest)
  end.

End Observations.

(* ===================================================================== *)
(** ** Properties of the HTTP metadata service *)
(* ===================================================================== *)

Module MetadataService.
Import Infrastructure Observations.

(** *** Running computations *)

Lemma bind_run {A B} (m : M A) (k : A -> M B) (w : World) :
  (m ≫= k) w =
  let '(a, w1, e1) := m w in
  let '(b, w2, e2) := k a w1 in (b, w2, e1 ++ e2).
Proof. reflexivity. Qed.

Lemma ret_run {A} (a : A) (w : World) : (mret a : M A) w = (a, w, []).
Proof. reflexivity. Qed.

(** The network-ensure step, case by case. *)
Lemma ensure_run ms w :
  ensureMinimalNetworkSetup ms w =
  match GetConfiguredNetworkInterfacesErr (platform ms) w with
  | Some cause =>
      (Some (WrapError cause "Getting configured network interfaces"), w,
       [EvGetConfiguredNetworkInterfaces])
  | None =>
      match configuredInterfaces w with
      | [] =>
          let log := EvDebug (logTag ms)
                       "No configured networks found, setting up DHCP network" in
          let left := SetupNetworkingResult (platform ms) minimalNetworks w in
          let w1 := mkWorld (fst left) (snd left) (requestsSent w) in
          match SetupNetworkingErr (platform ms) minimalNetworks w with
          | Some cause =>
              (Some (WrapError cause "Setting up initial DHCP network"), w1,
               [EvGetConfiguredNetworkInterfaces; log; EvSetupNetworking minimalNetworks])
          | None =>
              (None, w1,
               [EvGetConfiguredNetworkInterfaces; log; EvSetupNetworking minimalNetworks])
          end
      | _ :: _ => (None, w, [EvGetConfiguredNetworkInterfaces])
      end
  end.
Proof.
  unfold ensureMinimalNetworkSetup. rewrite bind_run.
  unfold GetConfiguredNetworkInterfaces.
  destruct (GetConfiguredNetworkInterfacesErr (platform ms) w) as [cause|]; [reflexivity|].
  destruct (configuredInterfaces w) as [|i l] eqn:Hc; cbn -[minimalNetworks].
  - unfold SetupNetworking, emit. rewrite !bind_run. cbn -[minimalNetworks].
    destruct (SetupNetworkingResult (platform ms) minimalNetworks w) as [fs ifaces].
    destruct (SetupNetworkingErr (platform ms) minimalNetworks w);
      cbn -[minimalNetworks]; reflexivity.
  - reflexivity.
Qed.

Lemma ReadFile_hit R ms url w bytes :
  cacheHit R ms url w bytes ->
  ReadFile (platform ms) (cachePath R url) w
  = ((bytes, None), w, [EvReadFile (cachePath R url)]).
Proof. intros [He Hf]. unfold ReadFile. rewrite He, Hf. reflexivity. Qed.

Lemma ReadFile_miss R ms url w :
  cacheMiss R ms url w ->
  exists b e, ReadFile (platform ms) (cachePath R url) w
              = ((b, Some e), w, [EvReadFile (cachePath R url)]).
Proof.
  intros H. unfold ReadFile.
  destruct (ReadFileErr (platform ms) (cachePath R url)) as [e|] eqn:He; [eauto|].
  destruct H as [H|H]; [congruence|]. rewrite H. eauto.
Qed.

Lemma closeBody_run ms resp w : closeBody ms resp w = (tt, w, closeLog ms resp).
Proof. unfold closeBody, closeLog. destruct (CloseErr resp); reflexivity. Qed.

(** The retry loop only sends requests: between one and [S more] of them,
    all for the same URL, and it stops at the first answer. *)
Lemma retryLoop_run R more url headers w :
  exists n,
    1 <= n <= S more /\
    events (retryLoop R more url headers w)
      = List.repeat (EvHTTPRequest "GET" url headers) n /\
    world (retryLoop R more url headers w)
      = mkWorld (files w) (configuredInterfaces w) (requestsSent w + n).
Proof.
  assert (Hlast : forall w r,
             let w1 := mkWorld (files w) (configuredInterfaces w) (S (requestsSent w)) in
             exists n, 1 <= n <= 1 /\
               EvHTTPRequest "GET" url headers :: events ((ret r : M _) w1)
               = List.repeat (EvHTTPRequest "GET" url headers) n /\
               world ((ret r : M (error + Response)) w1)
               = mkWorld (files w) (configuredInterfaces w) (requestsSent w + n)).
  { intros w0 r. exists 1. split; [lia|]. split; [reflexivity|].
    unfold world, ret. cbn. f_equal. lia. }
  revert w. induction more as [|more IH]; intros w; cbn [retryLoop]; rewrite bind_run;
    unfold roundTrip; cbn beta iota zeta.
  - destruct (Hlast w (retry_Answer R (http_RoundTrip R (requestsSent w) url headers)))
      as (n & Hn & Hev & Hw).
    exists n. split; [lia|]. split; [exact Hev|exact Hw].
  - destruct (retry_IsRetryable R (http_RoundTrip R (requestsSent w) url headers)).
    + destruct (IH (mkWorld (files w) (configuredInterfaces w) (S (requestsSent w))))
        as (n & Hn & Hev & Hw).
      destruct (retryLoop R more url headers _) as [[r w2] e2].
      unfold events, world in *. cbn [fst snd] in *. subst e2 w2.
      exists (S n). split; [lia|]. split; [reflexivity|].
      cbn. f_equal. lia.
    + destruct (Hlast w (retry_Answer R (http_RoundTrip R (requestsSent w) url headers)))
        as (n & Hn & Hev & Hw).
      exists n. split; [lia|]. split; [exact Hev|exact Hw].
Qed.

Lemma doGet_hit_run R ms url w bytes :
  cacheHit R ms url w bytes ->
  doGet R ms url w = ((bytes, None), w, [EvReadFile (cachePath R url)]).
Proof.
  intros H. unfold doGet. rewrite bind_run, (ReadFile_hit _ _ _ _ _ H). reflexivity.
Qed.

Lemma doGet_miss_run R ms url w :
  cacheMiss R ms url w ->
  doGet R ms url w =
  let path := cachePath R url in
  match http_NewRequestErr R url with
  | Some err => (("", Some err), w, [EvReadFile path])
  | None =>
      let '(r, w1, ev) := RetryClient_Do R 10 (retryDelay ms) url (requestHeader R ms) w in
      match r with
      | inl err => (("", Some err), w1, EvReadFile path :: ev)
      | inr resp =>
          match ReadAllErr resp with
          | Some err =>
              (("", Some (WrapError err "Reading user data response body")), w1,
               EvReadFile path :: ev ++ closeLog ms resp)
          | None =>
              match WriteFileErr (platform ms) path with
              | Some err =>
                  (("", Some (WrapError err "Caching response body")), w1,
                   EvReadFile path :: ev ++ EvWriteFile path (Body resp) :: closeLog ms resp)
              | None =>
                  ((Body resp, None),
                   mkWorld (<[path := Body resp]> (files w1))
                           (configuredInterfaces w1) (requestsSent w1),
                   EvReadFile path :: ev ++ EvWriteFile path (Body resp) :: closeLog ms resp)
              end
          end
      end
  end.
Proof.
  intros H. destruct (ReadFile_miss _ _ _ _ H) as (b & e & HR).
  unfold doGet. rewrite bind_run, HR. cbn beta iota zeta.
  destruct (http_NewRequestErr R url) as [err|]; [reflexivity|].
  rewrite bind_run.
  destruct (RetryClient_Do R 10 (retryDelay ms) url (requestHeader R ms) w)
    as [[[err|resp] w1] ev]; cbn beta iota zeta.
  - rewrite ret_run. cbn. rewrite app_nil_r. reflexivity.
  - unfold defer. rewrite !bind_run.
    destruct (ReadAllErr resp) as [err|].
    + rewrite ret_run, bind_run, closeBody_run, ret_run. cbn.
      rewrite app_nil_r. reflexivity.
    + rewrite bind_run. unfold WriteFile at 1.
      destruct (WriteFileErr (platform ms) (cachePath R url)) as [err|];
        rewrite ret_run, bind_run, closeBody_run, ret_run; cbn;
        rewrite app_nil_r; reflexivity.
Qed.

Lemma wraps_trans a b c : wraps a b -> wraps b c -> wraps a c.
Proof.
  intros Hab Hbc. induction Hbc.
  - apply wraps_more. exact Hab.
  - apply wraps_more. assumption.
Qed.

Lemma wraps_after cause msg e' :
  e' = WrapError cause msg \/ wraps (WrapError cause msg) e' -> wraps cause e'.
Proof.
  intros [->|Hw]; [constructor|].
  eapply wraps_trans; [constructor|exact Hw].
Qed.

Lemma afterEnsure_ensures ms {A} (errOf : A -> option error) (m : M A) w :
  afterEnsure ms errOf m w -> ensuresNetworkFirst ms errOf m w.
Proof.
  unfold afterEnsure, ensuresNetworkFirst, needsSetup, ensureFailure.
  rewrite ensure_run.
  destruct (GetConfiguredNetworkInterfacesErr (platform ms) w) as [cause|].
  - intros ((e' & He' & Hw) & Hworld & Hev). rewrite Hev, Hworld. cbn.
    split; [eauto|]. split; [reflexivity|]. split; [reflexivity|].
    intros c [= <-]. repeat split; auto.
    exists e'. eauto using wraps_after.
  - destruct (configuredInterfaces w) as [|i l] eqn:Hc.
    + cbn zeta. destruct (SetupNetworkingErr (platform ms) minimalNetworks w) as [cause|].
      * intros ((e' & He' & Hw) & Hworld & Hev). rewrite Hev.
        cbn -[minimalNetworks].
        split; [eauto|]. split; [reflexivity|]. split; [discriminate|].
        intros c [= <-]. repeat split; auto.
        exists e'. eauto using wraps_after.
      * intros (rest & Hev & Hrest & Hconf). rewrite Hev.
        cbn -[minimalNetworks]. rewrite Hrest.
        split; [eauto|]. split; [reflexivity|]. split; discriminate.
    + intros (rest & Hev & Hrest & Hconf). rewrite Hev, Hconf, Hc.
      cbn. rewrite Hrest.
      split; [eauto|]. split; [reflexivity|]. split; [reflexivity|discriminate].
Qed.

Lemma filter_repeat_false {A} (f : A -> bool) (x : A) (n : nat) :
  f x = false -> List.filter f (List.repeat x n) = [].
Proof. intros H. induction n as [|n IH]; cbn; [|rewrite H]; auto. Qed.

Lemma filter_nil_weaken {A} (f g : A -> bool) (l : list A) :
  (forall x, f x = true -> g x = true) ->
  List.filter g l = [] -> List.filter f l = [].
Proof.
  intros Hfg. induction l as [|x l IH]; cbn; [reflexivity|].
  destruct (g x) eqn:Hg; [discriminate|].
  destruct (f x) eqn:Hf; [rewrite (Hfg _ Hf) in Hg; discriminate|]. exact IH.
Qed.

Lemma closeLog_quiet ms resp f :
  (forall tag msg, f (EvWarn tag msg) = false) ->
  List.filter f (closeLog ms resp) = [].
Proof. intros H. unfold closeLog. destruct (CloseErr resp); cbn; rewrite ?H; reflexivity. Qed.

(** [doGet] reads the cache and, on a miss, sends requests and writes the
    cache; it does nothing else. *)
Lemma doGet_fetchOnly R ms url : fetchOnly (doGet R ms url).
Proof.
  intros w.
  destruct (ReadFileErr (platform ms) (cachePath R url)) as [e|] eqn:He;
    [|destruct (files w !! cachePath R url) as [bytes|] eqn:Hf].
  2:{ rewrite (doGet_hit_run R ms url w bytes) by (split; assumption).
      cbn. auto. }
  all: rewrite doGet_miss_run by (first [left; congruence | right; assumption]).
  all: cbn zeta; destruct (http_NewRequestErr R url); [cbn; auto|].
  all: unfold RetryClient_Do;
    destruct (retryLoop_run R (pred 10) url (requestHeader R ms) w) as (n & _ & Hev & Hw);
    destruct (retryLoop R (pred 10) url (requestHeader R ms) w) as [[r w1] ev];
    unfold events, world in Hev, Hw; cbn [fst snd] in Hev, Hw; subst ev w1.
  all: destruct r as [err|resp]; [|destruct (ReadAllErr resp);
         [|destruct (WriteFileErr (platform ms) (cachePath R url))]].
  all: unfold events, world, value;
    cbn [fst snd configuredInterfaces List.filter isEnsureStep isLookupHost].
  all: rewrite ?List.filter_app; cbn [List.filter isEnsureStep isLookupHost].
  all: rewrite !filter_repeat_false by reflexivity.
  all: rewrite ?closeLog_quiet by reflexivity.
  all: auto.
Qed.

Lemma doGet_no_setup R ms url w :
  List.filter isSetupNetworking (events (doGet R ms url w)) = [] /\
  configuredInterfaces (world (doGet R ms url w)) = configuredInterfaces w.
Proof.
  destruct (doGet_fetchOnly R ms url w) as (H1 & _ & H3). split; [|exact H3].
  eapply filter_nil_weaken; [|exact H1]. intros [] ?; auto.
Qed.

(** *** The fetches, unfolded *)

Lemma eqb_empty_false (s : string) : s <> "" -> String.eqb s "" = false.
Proof. intros H. apply String.eqb_neq. exact H. Qed.

Lemma GetPublicKey_fetch R ms :
  sshKeysPath ms <> "" ->
  GetPublicKey R ms
  = ensureAndGet R ms (metadataHost ms +:+ sshKeysPath ms) "Getting open ssh key from url ".
Proof. intros H. unfold GetPublicKey. rewrite (eqb_empty_false _ H). reflexivity. Qed.

Lemma GetInstanceID_fetch R ms :
  instanceIDPath ms <> "" ->
  GetInstanceID R ms
  = ensureAndGet R ms (metadataHost ms +:+ instanceIDPath ms) "Getting instance id from url ".
Proof. intros H. unfold GetInstanceID. rewrite (eqb_empty_false _ H). reflexivity. Qed.

Lemma GetValueAtPath_fetch R ms path :
  path <> "" ->
  GetValueAtPath R ms path
  = ensureAndGet R ms (metadataHost ms +:+ path) "Getting value from url ".
Proof. intros H. unfold GetValueAtPath. rewrite (eqb_empty_false _ H). reflexivity. Qed.

Lemma ensureAndGet_run R ms url what w :
  ensureAndGet R ms url what w =
  let '(e, w1, ev1) := ensureMinimalNetworkSetup ms w in
  match e with
  | Some err => (("", Some err), w1, ev1)
  | None =>
      let '((respBytes, derr), w2, ev2) := doGet R ms url w1 in
      (match derr with
       | Some err => ("", Some (WrapErrorf err what url ""))
       | None => (respBytes, None)
       end, w2, ev1 ++ ev2)
  end.
Proof.
  unfold ensureAndGet. rewrite bind_run.
  destruct (ensureMinimalNetworkSetup ms w) as [[[err|] w1] ev1]; cbn beta iota zeta.
  - rewrite ret_run, app_nil_r. reflexivity.
  - rewrite bind_run. destruct (doGet R ms url w1) as [[[respBytes [err|]] w2] ev2];
      cbn beta iota zeta; rewrite ret_run, app_nil_r; reflexivity.
Qed.

Lemma getUserData_run R ms w :
  getUserData R ms w =
  let url := metadataHost ms +:+ userdataPath ms in
  let '(e, w1, ev1) := ensureMinimalNetworkSetup ms w in
  match e with
  | Some err => ((zeroUserData, Some err), w1, ev1)
  | None =>
      let '((respBytes, derr), w2, ev2) := doGet R ms url w1 in
      (match derr with
       | Some err => (zeroUserData, Some (WrapErrorf err "Getting user data from url " url ""))
       | None =>
           match json_Unmarshal R respBytes with
           | (userData, Some err) =>
               (userData, Some (WrapErrorf err "Unmarshalling user data '" respBytes "'"))
           | (userData, None) => (userData, None)
           end
       end, w2, ev1 ++ ev2)
  end.
Proof.
  unfold getUserData. rewrite bind_run.
  destruct (ensureMinimalNetworkSetup ms w) as [[[err|] w1] ev1]; cbn beta iota zeta.
  - rewrite ret_run, app_nil_r. reflexivity.
  - rewrite bind_run.
    destruct (doGet R ms _ w1) as [[[respBytes [err|]] w2] ev2]; cbn beta iota zeta.
    + rewrite ret_run, app_nil_r. reflexivity.
    + destruct (json_Unmarshal R respBytes) as [userData [err|]];
        rewrite ret_run, app_nil_r; reflexivity.
Qed.

Lemma GetServerName_run R ms w :
  GetServerName R ms w =
  let '((userData, err), w1, ev) := getUserData R ms w in
  (match err with
   | Some err => ("", Some (WrapError err "Getting user data"))
   | None =>
       if Nat.eqb (String.length (Name (Server userData))) 0
       then ("", Some (Error "Empty server name"))
       else (Name (Server userData), None)
   end, w1, ev).
Proof.
  unfold GetServerName. rewrite bind_run.
  destruct (getUserData R ms w) as [[[userData [err|]] w1] ev]; cbn beta iota zeta.
  - rewrite ret_run, app_nil_r. reflexivity.
  - destruct (Nat.eqb _ 0); rewrite ret_run, app_nil_r; reflexivity.
Qed.

Lemma GetRegistryEndpoint_run R ms w :
  GetRegistryEndpoint R ms w =
  let '((userData, err), w1, ev) := getUserData R ms w in
  match err with
  | Some err => (("", Some (WrapError err "Getting user data")), w1, ev)
  | None =>
      let endpoint := Endpoint (Registry userData) in
      match Nameserver (DNS userData) with
      | [] => ((endpoint, None), w1, ev)
      | (_ :: _) as nameServers =>
          (match LookupHostResult (resolver ms) nameServers endpoint with
           | (_, Some err) => ("", Some (WrapError err "Resolving registry endpoint"))
           | (resolved, None) => (resolved, None)
           end, w1, ev ++ [EvLookupHost nameServers endpoint])
      end
  end.
Proof.
  unfold GetRegistryEndpoint. rewrite bind_run.
  destruct (getUserData R ms w) as [[[userData [err|]] w1] ev]; cbn beta iota zeta.
  - rewrite ret_run, app_nil_r. reflexivity.
  - destruct (Nameserver (DNS userData)) as [|ns l]; cbn [length Nat.ltb Nat.leb].
    + rewrite ret_run, app_nil_r. reflexivity.
    + rewrite bind_run. unfold LookupHost.
      destruct (LookupHostResult (resolver ms) (ns :: l) _) as [resolved [err|]];
        rewrite ret_run, app_nil_r; reflexivity.
Qed.

Lemma GetNetworks_run R ms w :
  GetNetworks R ms w =
  let '((userData, err), w1, ev) := getUserData R ms w in
  (match err with
   | Some err => (∅, Some (WrapError err "Getting user data"))
   | None => (Networks_ userData, None)
   end, w1, ev).
Proof.
  unfold GetNetworks. rewrite bind_run.
  destruct (getUserData R ms w) as [[[userData [err|]] w1] ev]; cbn beta iota zeta;
    rewrite ret_run, app_nil_r; reflexivity.
Qed.

(** *** Every fetch is built on the ensure step *)

Ltac observe := unfold value, world, events in *; cbn [fst snd] in *.

Lemma ensureAndGet_afterEnsure R ms url what w :
  afterEnsure ms snd (ensureAndGet R ms url what) w.
Proof.
  unfold afterEnsure. rewrite ensureAndGet_run.
  destruct (ensureMinimalNetworkSetup ms w) as [[[err|] w1] ev1].
  - observe. eauto 6.
  - pose proof (doGet_no_setup R ms url w1) as [Hs Hc].
    destruct (doGet R ms url w1) as [[[respBytes derr] w2] ev2]. observe. eauto.
Qed.

Lemma getUserData_afterEnsure R ms w : afterEnsure ms snd (getUserData R ms) w.
Proof.
  unfold afterEnsure. rewrite getUserData_run. cbn zeta.
  destruct (ensureMinimalNetworkSetup ms w) as [[[err|] w1] ev1].
  - observe. eauto 6.
  - pose proof (doGet_no_setup R ms (metadataHost ms +:+ userdataPath ms) w1) as [Hs Hc].
    destruct (doGet R ms _ w1) as [[[respBytes derr] w2] ev2]. observe. eauto.
Qed.

Lemma GetServerName_afterEnsure R ms w : afterEnsure ms snd (GetServerName R ms) w.
Proof.
  pose proof (getUserData_afterEnsure R ms w) as H. unfold afterEnsure in *.
  rewrite GetServerName_run.
  destruct (ensureMinimalNetworkSetup ms w) as [[[err|] w1] ev1];
    destruct (getUserData R ms w) as [[[userData uerr] w2] ev]; observe.
  - destruct H as ((e' & -> & He') & -> & ->). repeat split; auto.
    eexists; split; [reflexivity|]. right.
    destruct He' as [->|He']; [constructor|]. apply wraps_more. exact He'.
  - exact H.
Qed.

Lemma GetNetworks_afterEnsure R ms w : afterEnsure ms snd (GetNetworks R ms) w.
Proof.
  pose proof (getUserData_afterEnsure R ms w) as H. unfold afterEnsure in *.
  rewrite GetNetworks_run.
  destruct (ensureMinimalNetworkSetup ms w) as [[[err|] w1] ev1];
    destruct (getUserData R ms w) as [[[userData uerr] w2] ev]; observe.
  - destruct H as ((e' & -> & He') & -> & ->). repeat split; auto.
    eexists; split; [reflexivity|]. right.
    destruct He' as [->|He']; [constructor|]. apply wraps_more. exact He'.
  - exact H.
Qed.

Lemma GetRegistryEndpoint_afterEnsure R ms w :
  afterEnsure ms snd (GetRegistryEndpoint R ms) w.
Proof.
  pose proof (getUserData_afterEnsure R ms w) as H. unfold afterEnsure in *.
  rewrite GetRegistryEndpoint_run.
  destruct (ensureMinimalNetworkSetup ms w) as [[[err|] w1] ev1];
    destruct (getUserData R ms w) as [[[userData uerr] w2] ev]; observe.
  - destruct H as ((e' & -> & He') & -> & ->). observe. repeat split; auto.
    eexists; split; [reflexivity|]. right.
    destruct He' as [->|He']; [constructor|]. apply wraps_more. exact He'.
  - destruct H as (rest & -> & Hrest & Hconf).
    destruct uerr as [err|]; [observe; eauto|].
    cbn zeta. destruct (Nameserver (DNS userData)) as [|ns l]; [observe; eauto|].
    observe. exists (rest ++ [EvLookupHost (ns :: l) (Endpoint (Registry userData))]).
    rewrite app_assoc, List.filter_app, Hrest. auto.
Qed.

Lemma Fetch_afterEnsure R ms A (errOf : A -> option error) (m : M A) w :
  Fetch R ms A errOf m -> afterEnsure ms errOf m w.
Proof.
  intros [H|H|path H| | | |].
  - rewrite (GetPublicKey_fetch R ms H). apply ensureAndGet_afterEnsure.
  - rewrite (GetInstanceID_fetch R ms H). apply ensureAndGet_afterEnsure.
  - rewrite (GetValueAtPath_fetch R ms path H). apply ensureAndGet_afterEnsure.
  - apply getUserData_afterEnsure.
  - apply GetServerName_afterEnsure.
  - apply GetRegistryEndpoint_afterEnsure.
  - apply GetNetworks_afterEnsure.
Qed.

Lemma times_hit R ms url w bytes n :
  cacheHit R ms url w bytes ->
  value (times n (doGet R ms url) w) = List.repeat (bytes, None) n /\
  world (times n (doGet R ms url) w) = w /\
  List.filter isHTTPRequest (events (times n (doGet R ms url) w)) = [].
Proof.
  intros H. induction n as [|n (IHv & IHw & IHe)]; [cbn; auto|].
  cbn [times]. rewrite bind_run, (doGet_hit_run _ _ _ _ _ H), bind_run.
  destruct (times n (doGet R ms url) w) as [[l w1] ev]. observe. subst.
  rewrite ret_run. cbn. rewrite app_nil_r. auto.
Qed.

(** C1. When the cache file of a URL exists and can be read, [doGet]
    returns exactly its bytes and does nothing but that read: no request is
    sent, nothing is written, the world is as before.  However often the
    URL is asked for again, the answer stays the cached one and no request
    is ever sent: the entry is not invalidated or refreshed. *)
Theorem doGet_cache_hit R ms url w bytes :
  cacheHit R ms url w bytes ->
  value (doGet R ms url w) = (bytes, None) /\
  world (doGet R ms url w) = w /\
  events (doGet R ms url w) = [EvReadFile (cachePath R url)] /\
  forall n,
    value (times n (doGet R ms url) w) = List.repeat (bytes, None) n /\
    world (times n (doGet R ms url) w) = w /\
    List.filter isHTTPRequest (events (times n (doGet R ms url) w)) = [].
Proof.
  intros H. rewrite (doGet_hit_run _ _ _ _ _ H). repeat split; try reflexivity;
    apply (times_hit R ms url w bytes n H).
Qed.

Lemma doGet_cache_hit_witness :
  cacheHit Fixtures.runtime Fixtures.service "http://169.254.169.254/user-data"
           Fixtures.cachedWorld "cached" /\
  value (doGet Fixtures.runtime Fixtures.service "http://169.254.169.254/user-data"
               Fixtures.cachedWorld) = ("cached", None).
Proof.
  assert (H : cacheHit Fixtures.runtime Fixtures.service
                "http://169.254.169.254/user-data" Fixtures.cachedWorld "cached")
    by (split; reflexivity).
  split; [exact H|].
  exact (proj1 (doGet_cache_hit Fixtures.runtime Fixtures.service
                  "http://169.254.169.254/user-data" Fixtures.cachedWorld "cached" H)).
Defined.

(** C2. Every metadata fetch runs the network-ensure step first: its first
    event is the query for the configured interfaces; [SetupNetworking] is
    invoked exactly when the query succeeds with an empty list, once, and
    what it is handed is one network, under the name eth0, of type dynamic
    and with every other field empty; otherwise the configured interfaces
    are left as they were; and when the query or the setup fails, the fetch
    returns an error that wraps the platform's, and neither an HTTP request
    nor a cache access takes place. *)
Theorem fetch_ensures_network_first R ms A (errOf : A -> option error) (m : M A) w :
  Fetch R ms A errOf m ->
  (exists rest, events (m w) = EvGetConfiguredNetworkInterfaces :: rest) /\
  List.filter isSetupNetworking (events (m w))
    = (if needsSetup ms w
       then [EvSetupNetworking
               {[ "eth0" := mkNetwork NetworkTypeDynamic "" "" "" "" [] [] ]}]
       else []) /\
  (needsSetup ms w = false ->
     configuredInterfaces (world (m w)) = configuredInterfaces w) /\
  (forall cause, ensureFailure ms w = Some cause ->
     (exists e, errOf (value (m w)) = Some e /\ wraps cause e) /\
     List.filter isHTTPRequest (events (m w)) = [] /\
     List.filter isCacheAccess (events (m w)) = []).
Proof.
  intros H. apply (afterEnsure_ensures ms errOf m w).
  apply (Fetch_afterEnsure R ms A errOf m w H).
Qed.

Lemma fetch_ensures_network_first_witness :
  Fetch Fixtures.runtime Fixtures.service _ snd
        (GetPublicKey Fixtures.runtime Fixtures.service) /\
  List.filter isSetupNetworking
    (events (GetPublicKey Fixtures.runtime Fixtures.service Fixtures.freshWorld))
  = [EvSetupNetworking {[ "eth0" := mkNetwork NetworkTypeDynamic "" "" "" "" [] [] ]}].
Proof.
  assert (H : Fetch Fixtures.runtime Fixtures.service _ snd
                (GetPublicKey Fixtures.runtime Fixtures.service))
    by (apply FetchPublicKey; discriminate).
  split; [exact H|].
  exact (proj1 (proj2 (fetch_ensures_network_first Fixtures.runtime Fixtures.service
                         _ snd _ Fixtures.freshWorld H))).
Defined.

Lemma ensure_first_event ms w :
  exists rest, events (ensureMinimalNetworkSetup ms w)
               = EvGetConfiguredNetworkInterfaces :: rest.
Proof.
  rewrite ensure_run.
  destruct (GetConfiguredNetworkInterfacesErr (platform ms) w); [observe; eauto|].
  destruct (configuredInterfaces w); [|observe; eauto].
  cbn zeta. destruct (SetupNetworkingErr (platform ms) minimalNetworks w); observe; eauto.
Qed.

Lemma doGet_first_event R ms url w :
  exists rest, events (doGet R ms url w) = EvReadFile (cachePath R url) :: rest.
Proof.
  destruct (ReadFileErr (platform ms) (cachePath R url)) as [e|] eqn:He;
    [|destruct (files w !! cachePath R url) as [bytes|] eqn:Hf].
  2:{ rewrite (doGet_hit_run R ms url w bytes) by (split; assumption).
      observe. eauto. }
  all: rewrite doGet_miss_run by (first [left; congruence | right; assumption]).
  all: cbn zeta; destruct (http_NewRequestErr R url); [observe; eauto|].
  all: destruct (RetryClient_Do R 10 (retryDelay ms) url (requestHeader R ms) w)
         as [[[err|resp] w1] ev]; [observe; eauto|].
  all: destruct (ReadAllErr resp); [observe; eauto|].
  all: destruct (WriteFileErr (platform ms) (cachePath R url)); observe; eauto.
Qed.

Lemma getUserData_events R ms w :
  events (getUserData R ms w)
  = events (ensureMinimalNetworkSetup ms w)
    ++ match value (ensureMinimalNetworkSetup ms w) with
       | Some _ => []
       | None =>
           events (doGet R ms (metadataHost ms +:+ userdataPath ms)
                     (world (ensureMinimalNetworkSetup ms w)))
       end.
Proof.
  rewrite getUserData_run. cbn zeta.
  destruct (ensureMinimalNetworkSetup ms w) as [[[err|] w1] ev1]; observe;
    [rewrite app_nil_r; reflexivity|].
  destruct (doGet R ms _ w1) as [[[respBytes derr] w2] ev2]. reflexivity.
Qed.

Lemma GetNetworks_events R ms w :
  events (GetNetworks R ms w) = events (getUserData R ms w).
Proof.
  rewrite GetNetworks_run.
  destruct (getUserData R ms w) as [[[userData uerr] w1] ev]. reflexivity.
Qed.

(** C3, counterexample.  A service whose user-data path is empty: asked for
    the networks, it does not return the empty value without a fetch. *)
Lemma GetNetworks_empty_path_fetches :
  userdataPath Fixtures.bareService = "" /\
  ~ returnsEmptyWithoutFetching ∅
      (GetNetworks Fixtures.runtime Fixtures.bareService) Fixtures.freshWorld.
Proof.
  split; [reflexivity|].
  intros (_ & _ & H). vm_compute in H. discriminate H.
Qed.

(** C3, as amended.  [GetPublicKey] and [GetInstanceID] return the empty
    string and no error when their configured path is empty, and call no
    collaborator at all.  [GetNetworks] has no such guard: whatever the
    user-data path is, it runs the network-ensure step first and, when the
    step succeeds, goes on to look up the URL made of the host and that
    path; what it returns is the networks of the parsed document, or a
    wrapped error. *)
Theorem empty_path_short_circuit R ms w :
  (sshKeysPath ms = "" -> GetPublicKey R ms w = (("", None), w, [])) /\
  (instanceIDPath ms = "" -> GetInstanceID R ms w = (("", None), w, [])) /\
  (exists rest,
     events (GetNetworks R ms w) = EvGetConfiguredNetworkInterfaces :: rest) /\
  (value (ensureMinimalNetworkSetup ms w) = None ->
   exists rest,
     events (GetNetworks R ms w)
     = events (ensureMinimalNetworkSetup ms w)
       ++ EvReadFile (cachePath R (metadataHost ms +:+ userdataPath ms)) :: rest) /\
  (forall userData w1 ev,
     getUserData R ms w = ((userData, None), w1, ev) ->
     value (GetNetworks R ms w) = (Networks_ userData, None)) /\
  (forall userData err w1 ev,
     getUserData R ms w = ((userData, Some err), w1, ev) ->
     value (GetNetworks R ms w) = (∅, Some (WrapError err "Getting user data"))).
Proof.
  split; [|split; [|split; [|split; [|split]]]].
  - intros H. unfold GetPublicKey. rewrite H. reflexivity.
  - intros H. unfold GetInstanceID. rewrite H. reflexivity.
  - rewrite GetNetworks_events, getUserData_events.
    destruct (ensure_first_event ms w) as [rest ->]. cbn. eauto.
  - intros H. rewrite GetNetworks_events, getUserData_events, H.
    destruct (doGet_first_event R ms (metadataHost ms +:+ userdataPath ms)
                (world (ensureMinimalNetworkSetup ms w))) as [rest ->].
    eauto.
  - intros userData w1 ev H. rewrite GetNetworks_run, H. reflexivity.
  - intros userData err w1 ev H. rewrite GetNetworks_run, H. reflexivity.
Qed.

Lemma empty_path_short_circuit_witness :
  sshKeysPath Fixtures.bareService = "" /\
  GetPublicKey Fixtures.runtime Fixtures.bareService Fixtures.freshWorld
  = (("", None), Fixtures.freshWorld, []).
Proof.
  split; [reflexivity|].
  exact (proj1 (empty_path_short_circuit Fixtures.runtime Fixtures.bareService
                  Fixtures.freshWorld) eq_refl).
Defined.

(** C4. On a cache miss, when the request can be built, the retried GET
    yields a response (after one to ten requests, all for this URL with the
    header made of the headers of the service) and its body can be read, [doGet] writes the body to
    the cache path and then returns it: the bytes returned and the cache
    entry are the same, and the write is among the events of the call.  If
    the cache write fails, [doGet] returns no bytes but the write's error,
    wrapped, and the files are as before. *)
Theorem doGet_cache_miss_stores R ms url w resp w1 ev :
  cacheMiss R ms url w ->
  http_NewRequestErr R url = None ->
  RetryClient_Do R 10 (retryDelay ms) url (requestHeader R ms) w = (inr resp, w1, ev) ->
  ReadAllErr resp = None ->
  (exists n, 1 <= n <= 10 /\
             ev = List.repeat (EvHTTPRequest "GET" url (requestHeader R ms)) n) /\
  (WriteFileErr (platform ms) (cachePath R url) = None ->
     value (doGet R ms url w) = (Body resp, None) /\
     files (world (doGet R ms url w)) !! cachePath R url = Some (Body resp) /\
     events (doGet R ms url w)
     = EvReadFile (cachePath R url)
       :: ev ++ EvWriteFile (cachePath R url) (Body resp) :: closeLog ms resp) /\
  (forall err,
     WriteFileErr (platform ms) (cachePath R url) = Some err ->
     value (doGet R ms url w) = ("", Some (WrapError err "Caching response body")) /\
     files (world (doGet R ms url w)) = files w).
Proof.
  intros Hmiss Hreq Hdo Hread.
  rewrite (doGet_miss_run R ms url w Hmiss). cbn zeta. rewrite Hreq, Hdo, Hread.
  unfold RetryClient_Do in Hdo.
  destruct (retryLoop_run R (pred 10) url (requestHeader R ms) w) as (n & Hn & Hev & Hw).
  rewrite Hdo in Hev, Hw. observe. subst ev w1.
  split; [exists n; split; [exact Hn|reflexivity]|]. split.
  - intros ->. cbn. rewrite lookup_insert_eq. auto.
  - intros err ->. split; reflexivity.
Qed.

Lemma doGet_cache_miss_stores_witness :
  let url := "http://169.254.169.254/user-data" in
  cacheMiss Fixtures.runtime Fixtures.service url Fixtures.freshWorld /\
  value (doGet Fixtures.runtime Fixtures.service url Fixtures.freshWorld)
  = (Fixtures.userDataBody, None) /\
  files (world (doGet Fixtures.runtime Fixtures.service url Fixtures.freshWorld))
    !! cachePath Fixtures.runtime url = Some Fixtures.userDataBody.
Proof.
  cbv zeta.
  assert (Hmiss : cacheMiss Fixtures.runtime Fixtures.service
                    "http://169.254.169.254/user-data" Fixtures.freshWorld)
    by (right; reflexivity).
  split; [exact Hmiss|].
  pose proof (doGet_cache_miss_stores Fixtures.runtime Fixtures.service
                "http://169.254.169.254/user-data" Fixtures.freshWorld
                (mkResponse 200 Fixtures.userDataBody None None)
                (mkWorld ∅ [] 3)
                (List.repeat (EvHTTPRequest "GET" "http://169.254.169.254/user-data" ∅) 3)
                Hmiss eq_refl eq_refl eq_refl) as (_ & H & _).
  destruct (H eq_refl) as (Hv & Hf & _). split; [exact Hv|exact Hf].
Defined.

(** C7. [GetServerName] fails whenever the server name of the parsed
    document has length zero, and returns the name with no error
    otherwise; an empty string is never returned as a success.  When
    getting or parsing the user data fails, the failure comes back wrapped
    as "Getting user data". *)
Theorem GetServerName_empty_name_is_error R ms w userData err w1 ev :
  getUserData R ms w = ((userData, err), w1, ev) ->
  (forall cause, err = Some cause ->
     value (GetServerName R ms w) = ("", Some (WrapError cause "Getting user data"))) /\
  (err = None -> String.length (Name (Server userData)) = 0 ->
     value (GetServerName R ms w) = ("", Some (Error "Empty server name"))) /\
  (err = None -> String.length (Name (Server userData)) <> 0 ->
     value (GetServerName R ms w) = (Name (Server userData), None)) /\
  (forall name, value (GetServerName R ms w) = (name, None) -> name <> "").
Proof.
  intros H. rewrite GetServerName_run, H. observe.
  split; [|split; [|split]].
  - intros cause ->. reflexivity.
  - intros -> ->. reflexivity.
  - intros -> Hlen. apply Nat.eqb_neq in Hlen. rewrite Hlen. reflexivity.
  - intros name. destruct err as [cause|]; [discriminate|].
    destruct (Nat.eqb (String.length (Name (Server userData))) 0) eqn:Hlen;
      [discriminate|].
    intros [= <-] Hempty. rewrite Hempty in Hlen. discriminate.
Qed.

Lemma GetServerName_empty_name_is_error_witness :
  exists w1 ev,
    getUserData Fixtures.runtime Fixtures.service Fixtures.freshWorld
    = ((Fixtures.parsedUserData, None), w1, ev) /\
    value (GetServerName Fixtures.runtime Fixtures.service Fixtures.freshWorld)
    = ("vm-1", None).
Proof.
  eexists _, _.
  assert (H : getUserData Fixtures.runtime Fixtures.service Fixtures.freshWorld
              = ((Fixtures.parsedUserData, None),
                 world (getUserData Fixtures.runtime Fixtures.service Fixtures.freshWorld),
                 events (getUserData Fixtures.runtime Fixtures.service Fixtures.freshWorld)))
    by (vm_compute; reflexivity).
  split; [exact H|].
  refine (proj1 (proj2 (proj2 (GetServerName_empty_name_is_error _ _ _ _ _ _ _ H)))
            eq_refl _).
  discriminate.
Defined.

Lemma ensure_no_lookup ms w :
  List.filter isLookupHost (events (ensureMinimalNetworkSetup ms w)) = [].
Proof.
  rewrite ensure_run.
  destruct (GetConfiguredNetworkInterfacesErr (platform ms) w); [reflexivity|].
  destruct (configuredInterfaces w); [|reflexivity].
  cbn zeta. destruct (SetupNetworkingErr (platform ms) minimalNetworks w); reflexivity.
Qed.

Lemma getUserData_no_lookup R ms w :
  List.filter isLookupHost (events (getUserData R ms w)) = [].
Proof.
  rewrite getUserData_events, List.filter_app, ensure_no_lookup.
  destruct (value (ensureMinimalNetworkSetup ms w)); [reflexivity|].
  apply (doGet_fetchOnly R ms).
Qed.

(** C8. [GetRegistryEndpoint] asks the resolver exactly when the parsed
    document supplies name servers: with an empty list it returns the
    document's endpoint as it stands and calls nothing after the user data
    is there; with a non-empty list it looks the endpoint up once, against
    these name servers, and returns the resolver's answer (or its error,
    wrapped). *)
Theorem GetRegistryEndpoint_resolves_iff_nameservers R ms w userData w1 ev :
  getUserData R ms w = ((userData, None), w1, ev) ->
  let endpoint := Endpoint (Registry userData) in
  let nameServers := Nameserver (DNS userData) in
  (nameServers = [] ->
     GetRegistryEndpoint R ms w = ((endpoint, None), w1, ev)) /\
  (nameServers <> [] ->
     events (GetRegistryEndpoint R ms w) = ev ++ [EvLookupHost nameServers endpoint] /\
     value (GetRegistryEndpoint R ms w)
     = match LookupHostResult (resolver ms) nameServers endpoint with
       | (_, Some err) => ("", Some (WrapError err "Resolving registry endpoint"))
       | (resolved, None) => (resolved, None)
       end) /\
  (List.filter isLookupHost (events (GetRegistryEndpoint R ms w)) <> []
   <-> nameServers <> []).
Proof.
  intros H endpoint nameServers.
  pose proof (getUserData_no_lookup R ms w) as Hquiet. rewrite H in Hquiet.
  rewrite GetRegistryEndpoint_run, H. cbn zeta. fold endpoint nameServers.
  observe.
  destruct nameServers as [|ns l]; split; [| split | | split ].
  - reflexivity.
  - intros Hne. contradiction.
  - cbn [snd]. rewrite Hquiet. split; intros Hne; contradiction.
  - discriminate.
  - intros _. split; reflexivity.
  - cbn [snd]. rewrite List.filter_app, Hquiet. cbn. split; discriminate.
Qed.

Lemma GetRegistryEndpoint_resolves_iff_nameservers_witness :
  exists w1 ev,
    getUserData Fixtures.runtime Fixtures.service Fixtures.freshWorld
    = ((Fixtures.parsedUserData, None), w1, ev) /\
    value (GetRegistryEndpoint Fixtures.runtime Fixtures.service Fixtures.freshWorld)
    = ("10.0.0.7", None).
Proof.
  eexists _, _.
  assert (H : getUserData Fixtures.runtime Fixtures.service Fixtures.freshWorld
              = ((Fixtures.parsedUserData, None),
                 world (getUserData Fixtures.runtime Fixtures.service Fixtures.freshWorld),
                 events (getUserData Fixtures.runtime Fixtures.service Fixtures.freshWorld)))
    by (vm_compute; reflexivity).
  split; [exact H|].
  refine (proj2 (proj1 (proj2
            (GetRegistryEndpoint_resolves_iff_nameservers _ _ _ _ _ _ H)) _)).
  discriminate.
Defined.

(** C9. [GetValueAtPath] with an empty path returns an error at once: no
    collaborator is called (no ensure step, no request, no cache access)
    and the world is as before.  With a non-empty path it runs the ensure
    step and, when the step succeeds, gets the URL made of the host and the
    path; a failure of the get comes back wrapped with the URL. *)
Theorem GetValueAtPath_empty_path R ms w :
  GetValueAtPath R ms "" w
  = (("", Some (Error "Can not retrieve metadata value for empthy path")), w, []) /\
  forall path, path <> "" ->
    (exists rest,
       events (GetValueAtPath R ms path w) = EvGetConfiguredNetworkInterfaces :: rest) /\
    GetValueAtPath R ms path w =
    let url := metadataHost ms +:+ path in
    let '(e, w1, ev1) := ensureMinimalNetworkSetup ms w in
    match e with
    | Some err => (("", Some err), w1, ev1)
    | None =>
        let '((respBytes, derr), w2, ev2) := doGet R ms url w1 in
        (match derr with
         | Some err => ("", Some (WrapErrorf err "Getting value from url " url ""))
         | None => (respBytes, None)
         end, w2, ev1 ++ ev2)
    end.
Proof.
  split; [reflexivity|]. intros path Hpath.
  rewrite (GetValueAtPath_fetch R ms path Hpath), ensureAndGet_run. split; [|reflexivity].
  destruct (ensure_first_event ms w) as [rest Hrest].
  destruct (ensureMinimalNetworkSetup ms w) as [[[err|] w1] ev1]; observe; subst ev1.
  - eauto.
  - destruct (doGet R ms _ w1) as [[[respBytes derr] w2] ev2]. observe. eauto.
Qed.

Lemma GetValueAtPath_empty_path_witness :
  "/hostname" <> "" /\
  exists rest,
    events (GetValueAtPath Fixtures.runtime Fixtures.service "/hostname"
              Fixtures.freshWorld)
    = EvGetConfiguredNetworkInterfaces :: rest.
Proof.
  assert (H : "/hostname" <> "") by discriminate.
  split; [exact H|].
  exact (proj1 (proj2 (GetValueAtPath_empty_path Fixtures.runtime Fixtures.service
                         Fixtures.freshWorld) "/hostname" H)).
Defined.

(** C10. [IsAvailable] is true for every service and [Load] returns no
    error; neither looks at the service or at the world. *)
Theorem IsAvailable_always ms : IsAvailable ms = true /\ Load ms = None.
Proof. split; reflexivity. Qed.

End MetadataService.

(* ===================================================================== *)
(** ** Properties of the network manager *)
(* ===================================================================== *)

Module NetworkManager.
Import Net.

(** *** Paths *)






(** *** Configurations are named after their interfaces, once each *)







(** *** Writing *)








(** *** The test suite of the manager, replayed *)

Example writes_a_network_script_for_static_and_dynamic_interfaces :
  let h := snd (SetupNetworking NetFixtures.noFaults NetFixtures.twoNetworks false
                  NetFixtures.freshHost) in
  files h !! "/etc/sysconfig/network-scripts/ifcfg-ethstatic"
    = Some (File NetFixtures.expectedNetworkConfigurationForStatic) /\
  files h !! "/etc/sysconfig/network-scripts/ifcfg-ethdhcp"
    = Some (File NetFixtures.expectedNetworkConfigurationForDHCP) /\
  files h !! "/etc/dhcp/dhclient.conf"
    = Some (File NetFixtures.expectedDhclientConfiguration) /\
  files h !! "/etc/dhcp/dhclient-ethdhcp.conf" = Some (Symlink "/etc/dhcp/dhclient.conf") /\
  Broadcasts h = [([SimpleInterfaceAddress "ethstatic" "1.2.3.4";
                    ResolvingInterfaceAddress "ethdhcp"], false)].
Proof. vm_compute. repeat split; reflexivity. Qed.

Example restarts_the_networks_if_any_ifconfig_file_changes :
  SetupNetworking NetFixtures.noFaults NetFixtures.threeNetworks false
    NetFixtures.hostWithOneStaleFile
  = (None, snd (SetupNetworking NetFixtures.noFaults NetFixtures.threeNetworks false
                  NetFixtures.hostWithOneStaleFile)) /\
  RunCommands (snd (SetupNetworking NetFixtures.noFaults NetFixtures.threeNetworks false
                      NetFixtures.hostWithOneStaleFile))
  = [["service"; "network"; "restart"]].
Proof. vm_compute. split; reflexivity. Qed.

Example does_not_restart_the_networks_if_nothing_changes :
  RunCommands (snd (SetupNetworking NetFixtures.noFaults NetFixtures.twoNetworks false
                      NetFixtures.convergedHost)) = [].
Proof. vm_compute. reflexivity. Qed.

Example writes_no_prepend_clause_without_dns_servers :
  files (snd (SetupNetworking NetFixtures.noFaults
                {[ "dhcp-network" := NetFixtures.dhcpNetworkWithoutDNS ]} false
                (mkHost (NetFixtures.stubInterfaces [("ethdhcp", NetFixtures.dhcpNetwork)])
                        ∅ [] [])))
    !! "/etc/dhcp/dhclient.conf"
  = Some (File NetFixtures.expectedDhclientPreamble).
Proof. vm_compute. reflexivity. Qed.

Example configures_the_single_device_beside_a_virtual_one :
  let h := snd (SetupNetworking NetFixtures.noFaults
                  {[ "static-network" := NetFixtures.staticNetworkWithoutMAC ]} false
                  (mkHost (NetFixtures.stubInterfacesWithVirtual
                             [("ethstatic", NetFixtures.staticNetwork)] ["virtual"])
                          ∅ [] [])) in
  files h !! "/etc/sysconfig/network-scripts/ifcfg-ethstatic"
    = Some (File NetFixtures.expectedNetworkConfigurationForStatic) /\
  files h !! "/etc/sysconfig/network-scripts/ifcfg-virtual" = None.
Proof. vm_compute. split; reflexivity. Qed.

Example skips_vip_networks :
  let h := snd (SetupNetworking NetFixtures.noFaults
                  (<["vip-network" := NetFixtures.vipNetwork]> NetFixtures.twoNetworks)
                  false NetFixtures.freshHost) in
  files h !! "/etc/sysconfig/network-scripts/ifcfg-ethstatic"
    = Some (File NetFixtures.expectedNetworkConfigurationForStatic) /\
  size (files h) = 4.
Proof. vm_compute. split; reflexivity. Qed.

Example returns_errors_from_writing_the_network_configuration :
  fst (SetupNetworking NetFixtures.failingWrites NetFixtures.twoNetworks false
         NetFixtures.freshHost)
  = Some (WrapError (Error "fs-write-file-error")
            "Writing to /etc/sysconfig/network-scripts/ifcfg-ethstatic").
Proof. vm_compute. reflexivity. Qed.

Example returns_errors_when_a_netmask_is_not_an_ip :
  fst (SetupNetworking NetFixtures.noFaults
         {[ "static-network" :=
              mkNetwork NetworkTypeManual "1.2.3.4" "not an ip" "3.4.5.6"
                        "fake-static-mac-address" [] [] ]} false
         (mkHost (NetFixtures.stubInterfaces [("ethstatic", NetFixtures.staticNetwork)])
                 ∅ [] []))
  = Some (WrapError (Error "Invalid netmask: not an ip") "Creating interface configurations").
Proof. vm_compute. reflexivity. Qed.

(** *** The restart decision *)






End NetworkManager.

(* ===================================================================== *)
(** ** More properties of the metadata service *)
(* ===================================================================== *)

Module MetadataServiceMore.
Import Infrastructure Observations MoreObservations MetadataService.

(** Every way [doGet] can go, one goal each: a hit; then, on a miss, a
    request that cannot be built, a GET that fails for good, a body that
    cannot be read, a cache write that fails, and the success. *)
Ltac doGet_cases R ms url w :=
  let e := fresh "e" in
  let He := fresh "Hread" in
  let Hf := fresh "Hfile" in
  let bytes := fresh "cached" in
  destruct (ReadFileErr (platform ms) (cachePath R url)) as [e|] eqn:He;
    [|destruct (files w !! cachePath R url) as [bytes|] eqn:Hf];
    [ rewrite (doGet_miss_run R ms url w) by (left; congruence)
    | rewrite (doGet_hit_run R ms url w bytes) by (split; assumption)
    | rewrite (doGet_miss_run R ms url w) by (right; assumption) ];
    [ | | ];
    cbn zeta;
    try (let Hq := fresh "Hrequest" in
         destruct (http_NewRequestErr R url) eqn:Hq;
         [|let n := fresh "n" in
           let Hn := fresh "Hn" in
           let Hev := fresh "Hev" in
           let Hw := fresh "Hw" in
           let Hdo := fresh "Hdo" in
           unfold RetryClient_Do;
           destruct (retryLoop_run R (pred 10) url (requestHeader R ms) w)
             as (n & Hn & Hev & Hw);
           destruct (retryLoop R (pred 10) url (requestHeader R ms) w)
             as [[[?err|?resp] ?w1] ?ev] eqn:Hdo;
           unfold events, world in Hev, Hw; cbn [fst snd] in Hev, Hw; subst;
           [|let Ha := fresh "Hbody" in
             destruct (ReadAllErr _) eqn:Ha;
             [|let Hwr := fresh "Hwrite" in
               destruct (WriteFileErr (platform ms) (cachePath R url)) eqn:Hwr]]]);
    unfold value, world, events; cbn [fst snd files configuredInterfaces requestsSent].

Lemma doGet_success_cached R ms url w bytes :
  value (doGet R ms url w) = (bytes, None) ->
  files (world (doGet R ms url w)) !! cachePath R url = Some bytes.
Proof.
  doGet_cases R ms url w; try discriminate;
    intros [= <-]; first [assumption | apply lookup_insert_eq].
Qed.

Lemma doGet_frame R ms url w p :
  p <> cachePath R url ->
  files (world (doGet R ms url w)) !! p = files w !! p.
Proof.
  intros Hp. doGet_cases R ms url w; try reflexivity;
    apply lookup_insert_ne; congruence.
Qed.

Lemma doGet_failure_files R ms url w b e :
  value (doGet R ms url w) = (b, Some e) ->
  b = "" /\ files (world (doGet R ms url w)) = files w.
Proof.
  doGet_cases R ms url w; try discriminate; intros [= <- _]; auto.
Qed.

Lemma doGet_requests R ms url w :
  exists n,
    n <= 10 /\
    List.filter isHTTPRequest (events (doGet R ms url w))
      = List.repeat (EvHTTPRequest "GET" url (requestHeader R ms)) n /\
    requestsSent (world (doGet R ms url w)) = requestsSent w + n.
Proof.
  assert (Hrep : forall n,
             List.filter isHTTPRequest
               (List.repeat (EvHTTPRequest "GET" url (requestHeader R ms)) n)
             = List.repeat (EvHTTPRequest "GET" url (requestHeader R ms)) n).
  { induction n as [|n IH]; cbn; [|rewrite IH]; reflexivity. }
  doGet_cases R ms url w.
  all: try (exists 0; cbn; split; [lia|]; split; [reflexivity|lia]).
  all: exists n; (split; [cbn in *; lia|]); split; [|reflexivity].
  all: cbn [List.filter isHTTPRequest];
    rewrite ?List.filter_app; cbn [List.filter isHTTPRequest];
    rewrite ?closeLog_quiet by reflexivity; rewrite Hrep, ?app_nil_r; reflexivity.
Qed.

(** *** The ensure step, seen from the cache *)

Lemma ensure_quiet ms w :
  requestsSent (world (ensureMinimalNetworkSetup ms w)) = requestsSent w /\
  List.filter isHTTPRequest (events (ensureMinimalNetworkSetup ms w)) = [] /\
  List.filter isCacheAccess (events (ensureMinimalNetworkSetup ms w)) = [].
Proof.
  rewrite ensure_run.
  destruct (GetConfiguredNetworkInterfacesErr (platform ms) w); [cbn; auto|].
  destruct (configuredInterfaces w); [|cbn; auto].
  cbn zeta. destruct (SetupNetworkingErr (platform ms) minimalNetworks w); cbn; auto.
Qed.

Lemma ensureAndGet_events R ms url what w :
  events (ensureAndGet R ms url what w)
  = events (ensureMinimalNetworkSetup ms w)
    ++ match value (ensureMinimalNetworkSetup ms w) with
       | Some _ => []
       | None => events (doGet R ms url (world (ensureMinimalNetworkSetup ms w)))
       end.
Proof.
  rewrite ensureAndGet_run.
  destruct (ensureMinimalNetworkSetup ms w) as [[[err|] w1] ev1]; observe;
    [rewrite app_nil_r; reflexivity|].
  destruct (doGet R ms url w1) as [[[respBytes derr] w2] ev2]. reflexivity.
Qed.

Lemma ensureAndGet_world R ms url what w :
  world (ensureAndGet R ms url what w)
  = match value (ensureMinimalNetworkSetup ms w) with
    | Some _ => world (ensureMinimalNetworkSetup ms w)
    | None => world (doGet R ms url (world (ensureMinimalNetworkSetup ms w)))
    end.
Proof.
  rewrite ensureAndGet_run.
  destruct (ensureMinimalNetworkSetup ms w) as [[[err|] w1] ev1]; observe;
    [reflexivity|].
  destruct (doGet R ms url w1) as [[[respBytes derr] w2] ev2]. reflexivity.
Qed.

Lemma getUserData_world R ms w :
  world (getUserData R ms w)
  = match value (ensureMinimalNetworkSetup ms w) with
    | Some _ => world (ensureMinimalNetworkSetup ms w)
    | None => world (doGet R ms (metadataHost ms +:+ userdataPath ms)
                       (world (ensureMinimalNetworkSetup ms w)))
    end.
Proof.
  rewrite getUserData_run. cbn zeta.
  destruct (ensureMinimalNetworkSetup ms w) as [[[err|] w1] ev1]; observe;
    [reflexivity|].
  destruct (doGet R ms _ w1) as [[[respBytes derr] w2] ev2]. reflexivity.
Qed.

Lemma GetServerName_footprint R ms w :
  world (GetServerName R ms w) = world (getUserData R ms w) /\
  events (GetServerName R ms w) = events (getUserData R ms w).
Proof.
  rewrite GetServerName_run.
  destruct (getUserData R ms w) as [[[userData uerr] w1] ev]. auto.
Qed.

Lemma GetNetworks_footprint R ms w :
  world (GetNetworks R ms w) = world (getUserData R ms w) /\
  events (GetNetworks R ms w) = events (getUserData R ms w).
Proof.
  rewrite GetNetworks_run.
  destruct (getUserData R ms w) as [[[userData uerr] w1] ev]. auto.
Qed.

Lemma GetRegistryEndpoint_footprint R ms w :
  world (GetRegistryEndpoint R ms w) = world (getUserData R ms w) /\
  exists lookups,
    events (GetRegistryEndpoint R ms w) = events (getUserData R ms w) ++ lookups /\
    length lookups <= 1 /\
    List.filter isHTTPRequest lookups = [] /\
    List.filter isCacheAccess lookups = [].
Proof.
  rewrite GetRegistryEndpoint_run.
  destruct (getUserData R ms w) as [[[userData [err|]] w1] ev].
  - split; [reflexivity|]. exists []. observe. rewrite app_nil_r. cbn. auto.
  - cbn zeta. destruct (Nameserver (DNS userData)) as [|ns l].
    + split; [reflexivity|]. exists []. observe. rewrite app_nil_r. cbn. auto.
    + split; [reflexivity|]. eexists. observe. split; [reflexivity|]. cbn. auto.
Qed.

(** *** What [doGet] leaves behind *)

(** X1. Whatever [doGet] returns as a success is what the cache file of the
    URL holds afterwards; and if that file can be read, asking for the URL
    again in the world the call left gives the same bytes from the cache,
    with the one read as its only event. *)
Theorem doGet_answer_is_cached R ms url w bytes :
  value (doGet R ms url w) = (bytes, None) ->
  files (world (doGet R ms url w)) !! cachePath R url = Some bytes /\
  (ReadFileErr (platform ms) (cachePath R url) = None ->
   doGet R ms url (world (doGet R ms url w))
   = ((bytes, None), world (doGet R ms url w), [EvReadFile (cachePath R url)])).
Proof.
  intros H. pose proof (doGet_success_cached R ms url w bytes H) as Hfile.
  split; [exact Hfile|]. intros Hread.
  apply doGet_hit_run. split; assumption.
Qed.

Lemma doGet_answer_is_cached_witness :
  value (doGet Fixtures.runtime Fixtures.service "http://169.254.169.254/ssh-keys"
               Fixtures.freshWorld) = (Fixtures.userDataBody, None) /\
  files (world (doGet Fixtures.runtime Fixtures.service "http://169.254.169.254/ssh-keys"
                      Fixtures.freshWorld))
    !! cachePath Fixtures.runtime "http://169.254.169.254/ssh-keys"
  = Some Fixtures.userDataBody.
Proof.
  assert (H : value (doGet Fixtures.runtime Fixtures.service
                       "http://169.254.169.254/ssh-keys" Fixtures.freshWorld)
              = (Fixtures.userDataBody, None)) by (vm_compute; reflexivity).
  split; [exact H|].
  exact (proj1 (doGet_answer_is_cached _ _ _ _ _ H)).
Defined.

(** X2. A [doGet] that fails returns no bytes.  Its error is the one of
    [http.NewRequest] or of the retried GET as it is, or a read failure of
    the body wrapped as "Reading user data response body", or the failure
    of the cache write wrapped as "Caching response body"; and unless it is
    this last one, the call has not asked the file system to write
    anything. *)
Theorem doGet_failure_modes R ms url w b e :
  value (doGet R ms url w) = (b, Some e) ->
  b = "" /\
  (http_NewRequestErr R url = Some e /\
   List.filter isWriteFile (events (doGet R ms url w)) = [] \/
   (exists w1 ev,
      RetryClient_Do R 10 (retryDelay ms) url (requestHeader R ms) w = (inl e, w1, ev)) /\
   List.filter isWriteFile (events (doGet R ms url w)) = [] \/
   (exists cause, e = WrapError cause "Reading user data response body") /\
   List.filter isWriteFile (events (doGet R ms url w)) = [] \/
   (exists cause,
      WriteFileErr (platform ms) (cachePath R url) = Some cause /\
      e = WrapError cause "Caching response body")).
Proof.
  intros H. destruct (doGet_failure_files R ms url w b e H) as [Hb _].
  split; [exact Hb|]. clear Hb. revert H.
  assert (Hrep : forall n,
             List.filter isWriteFile
               (List.repeat (EvHTTPRequest "GET" url (requestHeader R ms)) n) = []).
  { intros n. apply filter_repeat_false. reflexivity. }
  doGet_cases R ms url w; try discriminate; intros [= _ <-].
  all: try (left; split; reflexivity).
  all: try (right; left; split; [eauto|];
            cbn [List.filter isWriteFile]; apply Hrep).
  all: try (right; right; left; split; [eauto|];
            cbn [List.filter isWriteFile]; rewrite List.filter_app, Hrep;
            apply closeLog_quiet; reflexivity).
  all: right; right; right; eauto.
Qed.

Lemma doGet_failure_modes_witness :
  exists b e,
    value (doGet Fixtures.runtime MoreFixtures.readOnlyService
                 "http://169.254.169.254/user-data" Fixtures.freshWorld) = (b, Some e) /\
    b = "".
Proof.
  assert (H : value (doGet Fixtures.runtime MoreFixtures.readOnlyService
                       "http://169.254.169.254/user-data" Fixtures.freshWorld)
              = ("", Some (WrapError (Error "read-only file system")
                             "Caching response body")))
    by (vm_compute; reflexivity).
  exists "", (WrapError (Error "read-only file system") "Caching response body").
  split; [exact H|].
  exact (proj1 (doGet_failure_modes _ _ _ _ _ _ H)).
Defined.

(** X3. [doGet] touches no file but the cache file of its URL, and leaves
    the configured interfaces as they were. *)
Theorem doGet_touches_only_its_cache_file R ms url w :
  (forall p, p <> cachePath R url ->
             files (world (doGet R ms url w)) !! p = files w !! p) /\
  configuredInterfaces (world (doGet R ms url w)) = configuredInterfaces w.
Proof.
  split.
  - intros p Hp. apply doGet_frame. exact Hp.
  - apply (doGet_no_setup R ms url w).
Qed.

(** What [Header.Add] has built after a list of entries, key by key. *)
Lemma Header_Add_all R (entries : list (string * string)) (h : Header) key :
  foldl (fun h kv => Header_Add R h kv.1 kv.2) h entries !! key
  = match List.filter
            (fun kv => bool_decide (textproto_CanonicalMIMEHeaderKey R kv.1 = key))
            entries with
    | [] => h !! key
    | added => Some (list_to_set_disj (added.*2) ⊎ default ∅ (h !! key))
    end.
Proof.
  revert h. induction entries as [|[k v] rest IH]; intros h; [reflexivity|].
  cbn [foldl List.filter fst snd]. rewrite IH. unfold Header_Add. cbn [fst snd].
  destruct (decide (textproto_CanonicalMIMEHeaderKey R k = key)) as [Hk|Hk].
  - rewrite (bool_decide_eq_true_2 _ Hk), Hk, lookup_insert_eq. cbn [default].
    destruct (List.filter _ rest) as [|kv added]; cbn [fmap list_fmap list_to_set_disj snd].
    + f_equal. multiset_solver.
    + f_equal. multiset_solver.
  - rewrite (bool_decide_eq_false_2 _ Hk), lookup_insert_ne by exact Hk. reflexivity.
Qed.

Lemma requestHeader_values R ms key :
  requestHeader R ms !! key = valuesUnder R ms key.
Proof.
  unfold requestHeader, valuesUnder. rewrite Header_Add_all.
  rewrite lookup_empty. cbn [default].
  destruct (List.filter _ _) as [|kv added]; [reflexivity|].
  f_equal. multiset_solver.
Qed.

(** The header of a service with the keys x-token and X-Token: one key,
    two values. *)
Example tokenService_header :
  requestHeader Fixtures.runtime MoreFixtures.tokenService
  = {[ "X-Token" := {[+ "a"; "b" +]}; "Metadata-Flavor" := {[+ "Google" +]} ]}.
Proof. vm_compute. reflexivity. Qed.

(** X4. The requests of [doGet] are GETs of the URL it was given, all with
    one header, and nothing else is sent over HTTP; each is counted.  The
    header is what [req.Header.Add] makes of the headers of the service:
    under a key it holds the values of all the entries whose key has that
    canonical form, so that entries whose keys differ in spelling only are
    merged, and it holds nothing under any other key. *)
Theorem doGet_requests_carry_the_added_headers R ms url w :
  (exists n,
     List.filter isHTTPRequest (events (doGet R ms url w))
       = List.repeat (EvHTTPRequest "GET" url (requestHeader R ms)) n /\
     requestsSent (world (doGet R ms url w)) = requestsSent w + n) /\
  (forall key, requestHeader R ms !! key = valuesUnder R ms key).
Proof.
  split.
  - destruct (doGet_requests R ms url w) as (n & _ & Hev & Hw). eauto.
  - apply requestHeader_values.
Qed.

(** *** The public calls *)




(** X6. The three accessors of the user data do what [getUserData] does and
    nothing more to the world: [GetServerName] and [GetNetworks] leave its
    world and its events; [GetRegistryEndpoint] leaves its world and adds at
    most one event, which is neither a request nor a cache access. *)
Theorem accessors_share_the_fetch R ms w :
  (world (GetServerName R ms w) = world (getUserData R ms w) /\
   events (GetServerName R ms w) = events (getUserData R ms w)) /\
  (world (GetNetworks R ms w) = world (getUserData R ms w) /\
   events (GetNetworks R ms w) = events (getUserData R ms w)) /\
  (world (GetRegistryEndpoint R ms w) = world (getUserData R ms w) /\
   exists lookups,
     events (GetRegistryEndpoint R ms w) = events (getUserData R ms w) ++ lookups /\
     length lookups <= 1 /\
     List.filter isHTTPRequest lookups = [] /\
     List.filter isCacheAccess lookups = []).
Proof.
  split; [apply GetServerName_footprint|].
  split; [apply GetNetworks_footprint|apply GetRegistryEndpoint_footprint].
Qed.

Lemma quiet_about_file path (l : list event) :
  List.filter isCacheAccess l = [] -> Forall (aboutFile path) l.
Proof.
  induction l as [|e l IH]; cbn; [constructor|].
  destruct e; cbn; try discriminate; intros H; constructor; cbn; auto.
Qed.

Lemma doGet_about_file R ms url w :
  Forall (aboutFile (cachePath R url)) (events (doGet R ms url w)).
Proof.
  assert (Hrep : forall n,
             Forall (aboutFile (cachePath R url))
               (List.repeat (EvHTTPRequest "GET" url (requestHeader R ms)) n)).
  { intros n. apply quiet_about_file, filter_repeat_false. reflexivity. }
  assert (Hlog : forall resp, Forall (aboutFile (cachePath R url)) (closeLog ms resp)).
  { intros resp. apply quiet_about_file, closeLog_quiet. reflexivity. }
  doGet_cases R ms url w;
    repeat first [ apply Forall_cons; split; [reflexivity|]
                 | apply Forall_app; split
                 | apply Forall_nil_2
                 | apply Hrep
                 | apply Hlog ].
Qed.

Lemma ensureAndGet_about_file R ms url what w :
  Forall (aboutFile (cachePath R url)) (events (ensureAndGet R ms url what w)).
Proof.
  rewrite ensureAndGet_events. apply Forall_app. split.
  - apply quiet_about_file, ensure_quiet.
  - destruct (value (ensureMinimalNetworkSetup ms w)); [constructor|].
    apply doGet_about_file.
Qed.

Lemma getUserData_about_file R ms w :
  Forall (aboutFile (cachePath R (metadataHost ms +:+ userdataPath ms)))
         (events (getUserData R ms w)).
Proof.
  rewrite getUserData_events. apply Forall_app. split.
  - apply quiet_about_file, ensure_quiet.
  - destruct (value (ensureMinimalNetworkSetup ms w)); [constructor|].
    apply doGet_about_file.
Qed.

(** X7. The only file a public call of the service reads or writes is the
    cache file of the URL it is about: the host followed by the ssh-keys
    path, the instance-id path, the path asked for, or the user-data
    path. *)
Theorem calls_access_only_their_cache_file R ms w :
  Forall (aboutFile (cachePath R (metadataHost ms +:+ sshKeysPath ms)))
         (events (GetPublicKey R ms w)) /\
  Forall (aboutFile (cachePath R (metadataHost ms +:+ instanceIDPath ms)))
         (events (GetInstanceID R ms w)) /\
  (forall path,
     Forall (aboutFile (cachePath R (metadataHost ms +:+ path)))
            (events (GetValueAtPath R ms path w))) /\
  Forall (aboutFile (cachePath R (metadataHost ms +:+ userdataPath ms)))
         (events (GetServerName R ms w)) /\
  Forall (aboutFile (cachePath R (metadataHost ms +:+ userdataPath ms)))
         (events (GetRegistryEndpoint R ms w)) /\
  Forall (aboutFile (cachePath R (metadataHost ms +:+ userdataPath ms)))
         (events (GetNetworks R ms w)).
Proof.
  split; [|split; [|split; [|split; [|split]]]].
  - destruct (String.eqb_spec (sshKeysPath ms) "") as [He|He].
    + unfold GetPublicKey. rewrite He. constructor.
    + rewrite (GetPublicKey_fetch R ms He). apply ensureAndGet_about_file.
  - destruct (String.eqb_spec (instanceIDPath ms) "") as [He|He].
    + unfold GetInstanceID. rewrite He. constructor.
    + rewrite (GetInstanceID_fetch R ms He). apply ensureAndGet_about_file.
  - intros path. destruct (String.eqb_spec path "") as [He|He].
    + subst path. constructor.
    + rewrite (GetValueAtPath_fetch R ms path He). apply ensureAndGet_about_file.
  - rewrite (proj2 (GetServerName_footprint R ms w)). apply getUserData_about_file.
  - destruct (GetRegistryEndpoint_footprint R ms w) as (_ & l & -> & _ & _ & Hl).
    apply Forall_app. split; [apply getUserData_about_file|].
    apply quiet_about_file. exact Hl.
  - rewrite (proj2 (GetNetworks_footprint R ms w)). apply getUserData_about_file.
Qed.

(** *** Calls in a row *)

Lemma getUserData_served_from_cache R ms w bytes :
  value (ensureMinimalNetworkSetup ms w) = None ->
  cacheHit R ms (metadataHost ms +:+ userdataPath ms)
           (world (ensureMinimalNetworkSetup ms w)) bytes ->
  getUserData R ms w
  = (match json_Unmarshal R bytes with
     | (userData, Some err) =>
         (userData, Some (WrapErrorf err "Unmarshalling user data '" bytes "'"))
     | (userData, None) => (userData, None)
     end,
     world (ensureMinimalNetworkSetup ms w),
     events (ensureMinimalNetworkSetup ms w)
     ++ [EvReadFile (cachePath R (metadataHost ms +:+ userdataPath ms))]).
Proof.
  intros He [Hr Hf]. rewrite getUserData_run. cbn zeta.
  destruct (ensureMinimalNetworkSetup ms w) as [[[err|] wa] ev1]; observe;
    [discriminate|].
  rewrite (doGet_hit_run R ms _ wa bytes) by (split; assumption). reflexivity.
Qed.

Lemma ensureAndGet_served_from_cache R ms url what w bytes :
  value (ensureMinimalNetworkSetup ms w) = None ->
  cacheHit R ms url (world (ensureMinimalNetworkSetup ms w)) bytes ->
  ensureAndGet R ms url what w
  = ((bytes, None), world (ensureMinimalNetworkSetup ms w),
     events (ensureMinimalNetworkSetup ms w) ++ [EvReadFile (cachePath R url)]).
Proof.
  intros He [Hr Hf]. rewrite ensureAndGet_run.
  destruct (ensureMinimalNetworkSetup ms w) as [[[err|] wa] ev1]; observe;
    [discriminate|].
  rewrite (doGet_hit_run R ms _ wa bytes) by (split; assumption). reflexivity.
Qed.

Lemma served_from_cache_requests ms w path :
  List.filter isHTTPRequest (events (ensureMinimalNetworkSetup ms w) ++ [EvReadFile path])
  = [].
Proof.
  rewrite List.filter_app. destruct (ensure_quiet ms w) as (_ & -> & _).
  reflexivity.
Qed.

(** A successful [getUserData], taken apart. *)
Lemma getUserData_success R ms w userData w1 ev :
  getUserData R ms w = ((userData, None), w1, ev) ->
  exists bytes,
    files w1 !! cachePath R (metadataHost ms +:+ userdataPath ms) = Some bytes /\
    json_Unmarshal R bytes = (userData, None).
Proof.
  rewrite getUserData_run. cbn zeta.
  destruct (ensureMinimalNetworkSetup ms w) as [[[err|] wa] ev1] eqn:He;
    [discriminate|].
  destruct (doGet R ms (metadataHost ms +:+ userdataPath ms) wa)
    as [[[bytes [derr|]] w2] ev2] eqn:Hd; [discriminate|].
  destruct (json_Unmarshal R bytes) as [userData' [uerr|]] eqn:Hj; [discriminate|].
  intros [= <- <- _]. exists bytes.
  pose proof (doGet_success_cached R ms (metadataHost ms +:+ userdataPath ms) wa bytes)
    as Hc.
  rewrite Hd in Hc. observe. split; [auto|exact Hj].
Qed.

(** X8. The user data is fetched once.  In the world a successful call of
    [getUserData] has left, if the cache file can be read and the ensure
    step of the next call does not fail and leaves that file as it is, the
    next call returns the same document, and neither it nor any of the
    three accessors sends an HTTP request; [GetNetworks] returns the
    networks of that document. *)
Theorem user_data_is_fetched_once R ms w userData w1 ev :
  getUserData R ms w = ((userData, None), w1, ev) ->
  ReadFileErr (platform ms) (cachePath R (metadataHost ms +:+ userdataPath ms)) = None ->
  ensureKeeps ms (cachePath R (metadataHost ms +:+ userdataPath ms)) w1 ->
  value (getUserData R ms w1) = (userData, None) /\
  value (GetNetworks R ms w1) = (Networks_ userData, None) /\
  List.filter isHTTPRequest (events (getUserData R ms w1)) = [] /\
  List.filter isHTTPRequest (events (GetServerName R ms w1)) = [] /\
  List.filter isHTTPRequest (events (GetRegistryEndpoint R ms w1)) = [] /\
  List.filter isHTTPRequest (events (GetNetworks R ms w1)) = [].
Proof.
  intros H Hread [He Hkeep].
  destruct (getUserData_success R ms w userData w1 ev H) as (bytes & Hf & Hj).
  rewrite <- Hkeep in Hf.
  pose proof (getUserData_served_from_cache R ms w1 bytes He (conj Hread Hf)) as Hrun.
  rewrite Hj in Hrun.
  assert (Hq : List.filter isHTTPRequest (events (getUserData R ms w1)) = []).
  { rewrite Hrun. apply served_from_cache_requests. }
  split; [rewrite Hrun; reflexivity|].
  split; [rewrite GetNetworks_run, Hrun; reflexivity|].
  split; [exact Hq|].
  split; [rewrite (proj2 (GetServerName_footprint R ms w1)); exact Hq|].
  split; [|rewrite (proj2 (GetNetworks_footprint R ms w1)); exact Hq].
  destruct (GetRegistryEndpoint_footprint R ms w1) as (_ & l & -> & _ & Hl & _).
  rewrite List.filter_app, Hq, Hl. reflexivity.
Qed.

Lemma user_data_is_fetched_once_witness :
  let w1 := world (getUserData Fixtures.runtime Fixtures.service Fixtures.freshWorld) in
  value (getUserData Fixtures.runtime Fixtures.service Fixtures.freshWorld)
  = (Fixtures.parsedUserData, None) /\
  ensureKeeps Fixtures.service
    (cachePath Fixtures.runtime "http://169.254.169.254/user-data") w1 /\
  value (GetNetworks Fixtures.runtime Fixtures.service w1)
  = (Fixtures.userDataNetworks, None) /\
  List.filter isHTTPRequest (events (GetNetworks Fixtures.runtime Fixtures.service w1)) = [].
Proof.
  cbv zeta.
  assert (H : getUserData Fixtures.runtime Fixtures.service Fixtures.freshWorld
              = ((Fixtures.parsedUserData, None),
                 world (getUserData Fixtures.runtime Fixtures.service Fixtures.freshWorld),
                 events (getUserData Fixtures.runtime Fixtures.service Fixtures.freshWorld)))
    by (vm_compute; reflexivity).
  assert (Hk : ensureKeeps Fixtures.service
                 (cachePath Fixtures.runtime
                    (metadataHost Fixtures.service +:+ userdataPath Fixtures.service))
                 (world (getUserData Fixtures.runtime Fixtures.service
                           Fixtures.freshWorld)))
    by (split; vm_compute; reflexivity).
  pose proof (user_data_is_fetched_once _ _ _ _ _ _ H eq_refl Hk)
    as (_ & Hn & _ & _ & _ & Hq).
  split; [rewrite H; reflexivity|]. split; [exact Hk|]. split; [exact Hn|exact Hq].
Defined.

(** A successful string fetch, taken apart. *)
Lemma ensureAndGet_success R ms url what w bytes w1 ev :
  ensureAndGet R ms url what w = ((bytes, None), w1, ev) ->
  files w1 !! cachePath R url = Some bytes.
Proof.
  rewrite ensureAndGet_run.
  destruct (ensureMinimalNetworkSetup ms w) as [[[err|] wa] ev1] eqn:He;
    [discriminate|].
  destruct (doGet R ms url wa) as [[[bytes' [derr|]] w2] ev2] eqn:Hd; [discriminate|].
  intros [= <- <- _].
  pose proof (doGet_success_cached R ms url wa bytes') as Hc.
  rewrite Hd in Hc. observe. auto.
Qed.

(** X9. The cache is keyed by URL alone and shared by the string fetches.
    In the world a successful call of [GetValueAtPath] has left, if the
    cache file can be read and the ensure step of the next call does not
    fail and leaves that file as it is, asking for the same path again
    returns the same value without an HTTP request; so do [GetPublicKey]
    and [GetInstanceID] when that path is the one they are configured
    with. *)
Theorem value_at_path_is_fetched_once R ms path w bytes w1 ev :
  path <> "" ->
  GetValueAtPath R ms path w = ((bytes, None), w1, ev) ->
  ReadFileErr (platform ms) (cachePath R (metadataHost ms +:+ path)) = None ->
  ensureKeeps ms (cachePath R (metadataHost ms +:+ path)) w1 ->
  (value (GetValueAtPath R ms path w1) = (bytes, None) /\
   List.filter isHTTPRequest (events (GetValueAtPath R ms path w1)) = []) /\
  (sshKeysPath ms = path ->
   value (GetPublicKey R ms w1) = (bytes, None) /\
   List.filter isHTTPRequest (events (GetPublicKey R ms w1)) = []) /\
  (instanceIDPath ms = path ->
   value (GetInstanceID R ms w1) = (bytes, None) /\
   List.filter isHTTPRequest (events (GetInstanceID R ms w1)) = []).
Proof.
  intros Hpath H Hread [He Hkeep]. rewrite (GetValueAtPath_fetch R ms path Hpath) in H.
  pose proof (ensureAndGet_success R ms _ _ w bytes w1 ev H) as Hf.
  rewrite <- Hkeep in Hf.
  assert (Hrun : forall what,
             ensureAndGet R ms (metadataHost ms +:+ path) what w1
             = ((bytes, None), world (ensureMinimalNetworkSetup ms w1),
                events (ensureMinimalNetworkSetup ms w1)
                ++ [EvReadFile (cachePath R (metadataHost ms +:+ path))])).
  { intros what. apply ensureAndGet_served_from_cache; [exact He|split; assumption]. }
  split; [|split].
  - rewrite (GetValueAtPath_fetch R ms path Hpath), Hrun.
    split; [reflexivity|apply served_from_cache_requests].
  - intros Hk. rewrite (GetPublicKey_fetch R ms) by congruence. rewrite Hk, Hrun.
    split; [reflexivity|apply served_from_cache_requests].
  - intros Hk. rewrite (GetInstanceID_fetch R ms) by congruence. rewrite Hk, Hrun.
    split; [reflexivity|apply served_from_cache_requests].
Qed.

Lemma value_at_path_is_fetched_once_witness :
  let w1 := world (GetValueAtPath Fixtures.runtime Fixtures.service "/ssh-keys"
                     Fixtures.freshWorld) in
  value (GetValueAtPath Fixtures.runtime Fixtures.service "/ssh-keys" Fixtures.freshWorld)
  = (Fixtures.userDataBody, None) /\
  ensureKeeps Fixtures.service
    (cachePath Fixtures.runtime "http://169.254.169.254/ssh-keys") w1 /\
  value (GetPublicKey Fixtures.runtime Fixtures.service w1)
  = (Fixtures.userDataBody, None) /\
  List.filter isHTTPRequest (events (GetPublicKey Fixtures.runtime Fixtures.service w1))
  = [].
Proof.
  cbv zeta.
  assert (H : GetValueAtPath Fixtures.runtime Fixtures.service "/ssh-keys"
                Fixtures.freshWorld
              = ((Fixtures.userDataBody, None),
                 world (GetValueAtPath Fixtures.runtime Fixtures.service "/ssh-keys"
                          Fixtures.freshWorld),
                 events (GetValueAtPath Fixtures.runtime Fixtures.service "/ssh-keys"
                           Fixtures.freshWorld)))
    by (vm_compute; reflexivity).
  assert (Hp : "/ssh-keys" <> "") by discriminate.
  assert (Hk : ensureKeeps Fixtures.service
                 (cachePath Fixtures.runtime
                    (metadataHost Fixtures.service +:+ "/ssh-keys"))
                 (world (GetValueAtPath Fixtures.runtime Fixtures.service "/ssh-keys"
                           Fixtures.freshWorld)))
    by (split; vm_compute; reflexivity).
  pose proof (value_at_path_is_fetched_once _ _ _ _ _ _ _ Hp H eq_refl Hk)
    as (_ & Hkey & _).
  split; [rewrite H; reflexivity|]. split; [exact Hk|]. exact (Hkey eq_refl).
Defined.

(** X10. A cached user-data document that does not parse is never
    replaced: when the ensure step does not fail and leaves the cache file
    of the user-data URL as it is, and that file can be read, each accessor
    returns the parse error, wrapped twice, and the call sends no HTTP
    request and asks for no write, so that the entry is not overwritten. *)
Theorem unparsable_cache_entry_stays R ms w bytes userData e :
  cacheHit R ms (metadataHost ms +:+ userdataPath ms) w bytes ->
  ensureFailure ms w = None ->
  files (world (ensureMinimalNetworkSetup ms w))
    !! cachePath R (metadataHost ms +:+ userdataPath ms)
  = files w !! cachePath R (metadataHost ms +:+ userdataPath ms) ->
  json_Unmarshal R bytes = (userData, Some e) ->
  let failure :=
    WrapError (WrapErrorf e "Unmarshalling user data '" bytes "'") "Getting user data" in
  value (GetServerName R ms w) = ("", Some failure) /\
  value (GetRegistryEndpoint R ms w) = ("", Some failure) /\
  value (GetNetworks R ms w) = (∅, Some failure) /\
  List.filter isHTTPRequest (events (getUserData R ms w)) = [] /\
  List.filter isWriteFile (events (getUserData R ms w)) = [].
Proof.
  intros Hhit Hens Hkeep Hj failure.
  destruct Hhit as [Hread Hfile]. rewrite <- Hkeep in Hfile.
  assert (Hhit := conj Hread Hfile). clear Hread Hfile.
  assert (He : value (ensureMinimalNetworkSetup ms w) = None).
  { revert Hens. unfold ensureFailure. rewrite ensure_run.
    destruct (GetConfiguredNetworkInterfacesErr (platform ms) w); [discriminate|].
    destruct (configuredInterfaces w); [|reflexivity].
    cbn zeta. intros ->. reflexivity. }
  pose proof (getUserData_served_from_cache R ms w bytes He Hhit) as Hrun.
  rewrite Hj in Hrun.
  split; [rewrite GetServerName_run, Hrun; reflexivity|].
  split; [rewrite GetRegistryEndpoint_run, Hrun; reflexivity|].
  split; [rewrite GetNetworks_run, Hrun; reflexivity|].
  rewrite Hrun. split; [apply served_from_cache_requests|].
  unfold events at 1; cbn [snd].
  rewrite List.filter_app. cbn. rewrite app_nil_r.
  eapply filter_nil_weaken; [|exact (proj2 (proj2 (ensure_quiet ms w)))].
  intros [] ?; auto.
Qed.

Lemma unparsable_cache_entry_stays_witness :
  cacheHit Fixtures.runtime Fixtures.service "http://169.254.169.254/user-data"
           MoreFixtures.poisonedWorld "<html>" /\
  value (GetServerName Fixtures.runtime Fixtures.service MoreFixtures.poisonedWorld)
  = ("", Some (WrapError (WrapErrorf (Error "invalid character")
                            "Unmarshalling user data '" "<html>" "'")
                 "Getting user data")).
Proof.
  assert (H : cacheHit Fixtures.runtime Fixtures.service
                (metadataHost Fixtures.service +:+ userdataPath Fixtures.service)
                MoreFixtures.poisonedWorld "<html>") by (split; reflexivity).
  split; [exact H|].
  exact (proj1 (unparsable_cache_entry_stays Fixtures.runtime Fixtures.service
                  MoreFixtures.poisonedWorld "<html>" zeroUserData
                  (Error "invalid character") H eq_refl eq_refl eq_refl)).
Defined.

(** X11. The body of a response is cached before it is parsed: when
    [getUserData] fetches a body that does not parse, it returns the parse
    error wrapped as "Unmarshalling user data" with the body quoted, and
    the cache file of the user-data URL holds that body all the same. *)
Theorem unparsable_body_is_cached R ms w bytes userData e :
  value (ensureMinimalNetworkSetup ms w) = None ->
  value (doGet R ms (metadataHost ms +:+ userdataPath ms)
           (world (ensureMinimalNetworkSetup ms w))) = (bytes, None) ->
  json_Unmarshal R bytes = (userData, Some e) ->
  value (getUserData R ms w)
  = (userData, Some (WrapErrorf e "Unmarshalling user data '" bytes "'")) /\
  files (world (getUserData R ms w))
    !! cachePath R (metadataHost ms +:+ userdataPath ms) = Some bytes.
Proof.
  intros He Hd Hj.
  pose proof (doGet_success_cached R ms _ _ bytes Hd) as Hc.
  rewrite getUserData_world, He. split; [|exact Hc].
  rewrite getUserData_run. cbn zeta.
  destruct (ensureMinimalNetworkSetup ms w) as [[err wa] ev1]. observe. subst err.
  destruct (doGet R ms _ wa) as [[[bytes' derr] w2] ev2]. observe.
  injection Hd as -> ->. rewrite Hj. reflexivity.
Qed.

Lemma unparsable_body_is_cached_witness :
  value (getUserData MoreFixtures.garbledRuntime Fixtures.service Fixtures.freshWorld)
  = (zeroUserData,
     Some (WrapErrorf (Error "invalid character") "Unmarshalling user data '" "<html>" "'"))
  /\
  files (world (getUserData MoreFixtures.garbledRuntime Fixtures.service
                  Fixtures.freshWorld))
    !! cachePath MoreFixtures.garbledRuntime "http://169.254.169.254/user-data"
  = Some "<html>".
Proof.
  exact (unparsable_body_is_cached MoreFixtures.garbledRuntime Fixtures.service
           Fixtures.freshWorld "<html>" zeroUserData (Error "invalid character")
           eq_refl eq_refl eq_refl).
Defined.

(** X12. With a configured path, [GetPublicKey] and [GetInstanceID] do
    what [GetValueAtPath] does at that path: they leave the same world and
    the same events, and succeed in the same cases with the same value. *)
Theorem configured_paths_are_values_at_paths R ms w :
  (sshKeysPath ms <> "" ->
   world (GetPublicKey R ms w) = world (GetValueAtPath R ms (sshKeysPath ms) w) /\
   events (GetPublicKey R ms w) = events (GetValueAtPath R ms (sshKeysPath ms) w) /\
   forall bytes,
     value (GetPublicKey R ms w) = (bytes, None) <->
     value (GetValueAtPath R ms (sshKeysPath ms) w) = (bytes, None)) /\
  (instanceIDPath ms <> "" ->
   world (GetInstanceID R ms w) = world (GetValueAtPath R ms (instanceIDPath ms) w) /\
   events (GetInstanceID R ms w) = events (GetValueAtPath R ms (instanceIDPath ms) w) /\
   forall bytes,
     value (GetInstanceID R ms w) = (bytes, None) <->
     value (GetValueAtPath R ms (instanceIDPath ms) w) = (bytes, None)).
Proof.
  assert (Hsame : forall url what what',
             world (ensureAndGet R ms url what w) = world (ensureAndGet R ms url what' w) /\
             events (ensureAndGet R ms url what w) = events (ensureAndGet R ms url what' w) /\
             forall bytes,
               value (ensureAndGet R ms url what w) = (bytes, None) <->
               value (ensureAndGet R ms url what' w) = (bytes, None)).
  { intros url what what'. rewrite !ensureAndGet_run.
    destruct (ensureMinimalNetworkSetup ms w) as [[[err|] wa] ev1]; [tauto|].
    destruct (doGet R ms url wa) as [[[bytes' [derr|]] w2] ev2]; observe.
    - split; [reflexivity|]. split; [reflexivity|]. intros bytes. split; discriminate.
    - tauto. }
  split; intros H.
  - rewrite (GetPublicKey_fetch R ms H), (GetValueAtPath_fetch R ms _ H). apply Hsame.
  - rewrite (GetInstanceID_fetch R ms H), (GetValueAtPath_fetch R ms _ H). apply Hsame.
Qed.

Lemma configured_paths_are_values_at_paths_witness :
  sshKeysPath Fixtures.service <> "" /\
  events (GetPublicKey Fixtures.runtime Fixtures.service Fixtures.freshWorld)
  = events (GetValueAtPath Fixtures.runtime Fixtures.service "/ssh-keys"
              Fixtures.freshWorld).
Proof.
  assert (H : sshKeysPath Fixtures.service <> "") by discriminate.
  split; [exact H|].
  exact (proj1 (proj2 (proj1 (configured_paths_are_values_at_paths Fixtures.runtime
                                Fixtures.service Fixtures.freshWorld) H))).
Defined.
End MetadataServiceMore.
